(** * Learning path generator

    A shallow embedding of the Python package [learning_path_generator]
    ([learning_path.py], [youtube_client.py], [medium_client.py]) and the
    properties of its plan assembler and its two source adapters.

    Conventions of the embedding:
    - a Python [int] is a [Z]; a [list] is a [list]; a [dict] with free keys
      (a feed entry, a snippet, the [durations] table) is a [gmap string _];
      a [dict] built with a fixed set of keys is a record;
    - a Python [str] is a [string] holding the UTF-8 bytes of the text;
      where the code looks at characters ([str.strip], [str.lower], the
      regex class [\s]) the bytes are read as code points, and the white
      space class is Python's, over all of Unicode;
    - the remote services, the third-party parsers and the case mapping
      of the Unicode database are parameters: the YouTube service object,
      [isodate.parse_duration], [feedparser.parse] and [str.lower];
    - an exception is a value of [exn]; a call that may raise returns a
      [result]. *)

From Stdlib Require Import Ascii.
From Equations Require Import Equations.
From stdpp Require Import base list gmap strings pretty relations.

Open Scope string_scope.
Open Scope list_scope.

Definition inspect {A : Type} (a : A) : {b : A | a = b} := exist _ a eq_refl.

(** ** Python built-ins used by the sources *)

Module Py.

Section Lists.
Context {A : Type}.

(** [bool(l)] for a list: true exactly when it is non-empty. *)
Definition truthy (l : list A) : bool :=
  match l with
  | [] => false
  | _ :: _ => true
  end.

(** A slice bound [i] on a list of length [len]: a negative bound counts
    from the end, and every bound is clamped into [0, len]. *)
Definition clamp_index (len i : Z) : Z :=
  if (i <? 0)%Z then Z.max 0 (i + len) else Z.min i len.

(** [l[start:stop]]. *)
Definition slice (l : list A) (start stop : Z) : list A :=
  let len := Z.of_nat (length l) in
  let lo := clamp_index len start in
  let hi := clamp_index len stop in
  take (Z.to_nat (hi - lo)) (drop (Z.to_nat lo) l).

(** [l[:stop]]. *)
Definition slice_to (l : list A) (stop : Z) : list A := slice l 0 stop.

End Lists.

(** [range(n)]: the indices [0, 1, ..., n-1], none when [n <= 0]. *)
Definition range (n : Z) : list nat := seq 0 (Z.to_nat n).

(** [bool(s)] for a string. *)
Definition str_truthy (s : string) : bool :=
  match s with
  | EmptyString => false
  | String _ _ => true
  end.

(** [a or b] on strings. *)
Definition str_or (a b : string) : string := if str_truthy a then a else b.

(** [d.get(key, default)]. *)
Definition dict_get (d : gmap string string) (key dflt : string) : string :=
  default dflt (d !! key).

(** *** Text as code points *)

Definition is_continuation (b : N) : bool := (128 <=? b)%N && (b <? 192)%N.

(** The code points of a text, read off its UTF-8 bytes. A byte that is
    not part of a well-formed sequence is read as the lone surrogate
    [U+DC00 + byte], as Python itself reads such a byte of a command-line
    argument. *)
Fixpoint decode (s : string) : list N :=
  match s with
  | EmptyString => []
  | String c0 s1 =>
      let b0 := N_of_ascii c0 in
      let lone := (if (b0 <? 128)%N then b0 else 56320 + b0)%N :: decode s1 in
      match s1 with
      | EmptyString => lone
      | String c1 s2 =>
          let b1 := N_of_ascii c1 in
          if (194 <=? b0)%N && (b0 <? 224)%N && is_continuation b1 then
            ((b0 - 192) * 64 + (b1 - 128))%N :: decode s2
          else
            match s2 with
            | EmptyString => lone
            | String c2 s3 =>
                let b2 := N_of_ascii c2 in
                let p3 :=
                  ((b0 - 224) * 4096 + (b1 - 128) * 64 + (b2 - 128))%N in
                if (224 <=? b0)%N && (b0 <? 240)%N && is_continuation b1
                   && is_continuation b2 && (2048 <=? p3)%N
                   && negb ((55296 <=? p3)%N && (p3 <? 57344)%N)
                then p3 :: decode s3
                else
                  match s3 with
                  | EmptyString => lone
                  | String c3 s4 =>
                      let b3 := N_of_ascii c3 in
                      let p4 :=
                        ((b0 - 240) * 262144 + (b1 - 128) * 4096
                         + (b2 - 128) * 64 + (b3 - 128))%N in
                      if (240 <=? b0)%N && (b0 <? 245)%N
                         && is_continuation b1 && is_continuation b2
                         && is_continuation b3 && (65536 <=? p4)%N
                         && (p4 <? 1114112)%N
                      then p4 :: decode s4
                      else lone
                  end
            end
      end
  end.

Definition byte (b : N) : string := String (ascii_of_N b) "".

(** The UTF-8 bytes of one code point; a surrogate that stands for a byte
    gives that byte back. *)
Definition encode_point (p : N) : string :=
  if (p <? 128)%N then byte p
  else if (p <? 2048)%N then byte (192 + p / 64) +:+ byte (128 + p mod 64)
  else if (56448 <=? p)%N && (p <? 56576)%N then byte (p - 56320)
  else if (p <? 65536)%N then
    byte (224 + p / 4096) +:+ byte (128 + (p / 64) mod 64)
    +:+ byte (128 + p mod 64)
  else
    byte (240 + p / 262144) +:+ byte (128 + (p / 4096) mod 64)
    +:+ byte (128 + (p / 64) mod 64) +:+ byte (128 + p mod 64).

Fixpoint encode (l : list N) : string :=
  match l with
  | [] => EmptyString
  | p :: l' => encode_point p +:+ encode l'
  end.

(** [str.isspace] on one character, which is also the regex class [\s] of
    a [str] pattern and the set [str.strip] removes: U+0009-000D,
    U+001C-0020, U+0085, U+00A0, U+1680, U+2000-200A, U+2028, U+2029,
    U+202F, U+205F and U+3000. *)
Definition isspace (c : N) : bool :=
  ((9 <=? c)%N && (c <=? 13)%N) || ((28 <=? c)%N && (c <=? 32)%N)
  || (c =? 133)%N || (c =? 160)%N || (c =? 5760)%N
  || ((8192 <=? c)%N && (c <=? 8202)%N)
  || (c =? 8232)%N || (c =? 8233)%N || (c =? 8239)%N || (c =? 8287)%N
  || (c =? 12288)%N.

Fixpoint lstrip (s : list N) : list N :=
  match s with
  | [] => []
  | c :: s' => if isspace c then lstrip s' else s
  end.

Fixpoint rstrip (s : list N) : list N :=
  match s with
  | [] => []
  | c :: s' =>
      let r := rstrip s' in
      if isspace c && negb (truthy r) then [] else c :: r
  end.

(** [s.strip()]. *)
Definition strip (s : list N) : list N := rstrip (lstrip s).

(** [re.sub(r"\s+", repl, s)]: the scan goes left to right, a match is a
    maximal run of white space, and each match is replaced by [repl]. The
    flag [in_run] records that the previous character belongs to a run
    whose replacement is already written. *)
Fixpoint re_sub_spaces_from (in_run : bool) (repl s : list N) : list N :=
  match s with
  | [] => []
  | c :: s' =>
      if isspace c then
        if in_run then re_sub_spaces_from true repl s'
        else repl ++ re_sub_spaces_from true repl s'
      else c :: re_sub_spaces_from false repl s'
  end.

Definition re_sub_spaces (repl s : list N) : list N :=
  re_sub_spaces_from false repl s.

(** [f"{n:02d}"]: decimal, filled with zeros on the left up to width 2. *)
Definition format_02d (n : Z) : string :=
  let s := pretty n in
  if (String.length s <? 2)%nat then "0" +:+ s else s.

End Py.

(** ** Exceptions *)

(** The handlers of [youtube_client.py] select on one class only,
    [googleapiclient.errors.HttpError]; every exception of another class
    (a transport failure raised below the API layer, for one) is
    [OtherException]. *)
Inductive exn : Type :=
| HttpError
| OtherException.

Inductive result (A : Type) : Type :=
| Ok (a : A)
| Raise (e : exn).
Arguments Ok {A} a.
Arguments Raise {A} e.

#[global] Instance result_ret : MRet result := fun _ a => Ok a.
#[global] Instance result_bind : MBind result := fun _ _ f r =>
  match r with
  | Ok a => f a
  | Raise e => Raise e
  end.

(** ** [youtube_client.py] *)

Module YouTube.

(** One element of ["items"] in a [search.list] response. The subscript
    [item["id"]["videoId"]] is a field: the search is restricted to
    [type="video"], whose results always carry it. The snippet is read
    with [item.get("snippet", {})] and may be absent. *)
Record SearchItem : Type := {
  item_videoId : string;
  item_snippet : option (gmap string string)
}.

(** One element of ["items"] in a [videos.list] response:
    [vid["id"]] and [vid["contentDetails"]["duration"]]. *)
Record DetailItem : Type := {
  detail_id : string;
  detail_duration : string
}.

(** The service object returned by [googleapiclient.discovery.build]: the
    two requests the adapter executes. A response is its ["items"] entry,
    [None] when the key is absent. *)
Record Service : Type := {
  search_list : string -> Z -> string -> result (option (list SearchItem));
  videos_list : string -> result (option (list DetailItem))
}.

Record VideoResource : Type := {
  title : string;
  channel : string;
  video_id : string;
  url : string;
  published_at : string;
  duration : string
}.

Section Adapter.

(** [googleapiclient.discovery.build("youtube", "v3", developerKey=...)]. *)
Variable build : string -> Service.

(** [isodate.parse_duration] followed by [total_seconds()]: the whole
    seconds of the parsed duration (the floor of the float), or [None]
    when the parser raises [ValueError] or [TypeError]. A parser that
    raises an exception of another class is outside this model, which
    therefore says when [search_videos] returns, not every way it can
    raise. *)
Variable parse_duration : string -> option Z.

(** Lines 77-89: the batched details request and the [durations] table. An
    [HttpError] of the request leaves the table empty. *)
Definition fetch_durations (youtube : Service) (video_ids : list string)
  : result (gmap string string) :=
  match videos_list youtube (String.concat "," video_ids) with
  | Ok video_response =>
      Ok (foldl (fun durations vid =>
                   <[detail_id vid := detail_duration vid]> durations)
                ∅ (default [] video_response))
  | Raise HttpError => Ok ∅
  | Raise e => Raise e
  end.

(** Lines 99-109: from the looked-up ISO 8601 text to [duration_str]. *)
Definition duration_str (duration_iso : option string) : string :=
  match duration_iso with
  | Some iso =>
      if Py.str_truthy iso then
        match parse_duration iso with
        | Some total_seconds =>
            let minutes := (total_seconds / 60)%Z in
            let seconds := (total_seconds mod 60)%Z in
            pretty minutes +:+ ":" +:+ Py.format_02d seconds
        | None => iso
        end
      else ""
  | None => ""
  end.

(** Lines 92-119: the body of the loop over [items]. *)
Definition video_of_item (durations : gmap string string) (item : SearchItem)
  : VideoResource :=
  let vid_id := item_videoId item in
  let snippet := default ∅ (item_snippet item) in
  {| title := Py.dict_get snippet "title" "";
     channel := Py.dict_get snippet "channelTitle" "";
     video_id := vid_id;
     url := "https://www.youtube.com/watch?v=" +:+ vid_id;
     published_at := Py.dict_get snippet "publishedAt" "";
     duration := duration_str (durations !! vid_id) |}.

(** [search_videos]. The message printed on an [HttpError] of the search
    is not part of the result and is left out. *)
Definition search_videos (api_key query : string) (max_results : Z)
    (order : string) : result (list VideoResource) :=
  let youtube := build api_key in
  match search_list youtube query max_results order with
  | Raise HttpError => Ok []
  | Raise e => Raise e
  | Ok search_response =>
      let items := default [] search_response in
      if negb (Py.truthy items) then Ok []
      else
        let video_ids := item_videoId <$> items in
        durations ← fetch_durations youtube video_ids;
        Ok (video_of_item durations <$> items)
  end.

End Adapter.

End YouTube.

(** ** [medium_client.py] *)

Module Medium.

Record ArticleResource : Type := {
  title : string;
  url : string;
  published : string;
  summary : string
}.

(** Lines 36-50: the body of the loop over the feed entries. *)
Definition article_of_entry (entry : gmap string string) : ArticleResource :=
  {| title := Py.dict_get entry "title" "";
     url := Py.dict_get entry "link" "";
     published := Py.str_or (Py.dict_get entry "published" "")
                            (Py.dict_get entry "updated" "");
     summary := Py.dict_get entry "summary" "" |}.

Section Adapter.

(** [feedparser.parse(url).entries]. *)
Variable feedparser_parse : string -> list (gmap string string).

Definition get_articles_for_tag (tag : string) (max_articles : Z)
  : list ArticleResource :=
  let feed_url := "https://medium.com/feed/tag/" +:+ tag in
  let entries := feedparser_parse feed_url in
  article_of_entry <$> Py.slice_to entries max_articles.

End Adapter.

End Medium.

(** ** [learning_path.py] *)

Module LearningPath.

Record WeekPlan : Type := {
  week : Z;
  theme : string;
  videos : list YouTube.VideoResource;
  articles : list Medium.ArticleResource;
  activities : string
}.

(** [_suggest_activities], lines 103-124. *)
Definition _suggest_activities (week_index : Z) (skill : string) : string :=
  if (week_index =? 0)%Z then
    "Set up your environment for " +:+ skill +:+ ". Work through basic examples "
    +:+ "covered in the videos and summarise the key concepts in your own words."
  else if (week_index =? 1)%Z then
    "Experiment with building small components or programs using " +:+ skill +:+ ". "
    +:+ "Complete exercises from articles and implement variations."
  else if (week_index =? 2)%Z then
    "Apply what you’ve learned to a mini‑project. Focus on more advanced features "
    +:+ "and read deeper resources."
  else
    "Develop a capstone project incorporating multiple concepts of " +:+ skill +:+ ". "
    +:+ "Write a blog post or create a video summarising your project and share it.".

Definition default_themes : list string :=
  ["Foundations"; "Core Concepts"; "Advanced Topics"; "Project & Practice"].

Section Slug.

(** [str.lower]: the lower-casing of a text by the case mapping of the
    Unicode database. *)
Variable str_lower : list N -> list N.

(** Line 63, on the characters of the skill:
    [re.sub(r"\s+", "-", skill.strip().lower())]. *)
Definition tag_slug_text (skill : string) : list N :=
  Py.re_sub_spaces (Py.decode "-") (str_lower (Py.strip (Py.decode skill))).

(** Line 63: the tag slug handed to the article adapter. *)
Definition tag_slug (skill : string) : string :=
  Py.encode (tag_slug_text skill).

End Slug.

Section Padding.
Context {A : Type}.

(** The condition of the loops at lines 71 and 73:
    [len(videos) < total_videos and videos]. *)
Definition loop_guard (total : Z) (l : list A) : bool :=
  bool_decide (Z.of_nat (length l) < total)%Z && Py.truthy l.

(** One iteration, [videos.extend(videos)], as a transition between the
    states of the list. *)
Inductive extend_step (total : Z) : list A -> list A -> Prop :=
| ExtendStep (l : list A) :
    loop_guard total l = true -> extend_step total l (l ++ l).

(** The loop [while len(l) < total and l: l.extend(l)] run to its end. *)
Equations? extend_until (total : Z) (l : list A) : list A
  by wf (Z.to_nat (total - Z.of_nat (length l))) lt :=
  extend_until total l with inspect (loop_guard total l) := {
    | exist _ true _ => extend_until total (l ++ l)
    | exist _ false _ => l }.
Proof.
  unfold loop_guard in *.
  apply andb_prop in e as [Hlt Hne].
  apply bool_decide_eq_true in Hlt.
  rewrite length_app. destruct l; [done | simpl in *; lia].
Qed.

(** Lines 71-76 for one of the two lists: the loop, then [l[:total]]. *)
Definition pad (total : Z) (l : list A) : list A :=
  Py.slice_to (extend_until total l) total.

End Padding.

(** Line 89. *)
Definition theme_of (week_num : nat) : string :=
  if (week_num <? length default_themes)%nat
  then default "" (default_themes !! week_num)
  else "Week " +:+ pretty (Z.of_nat week_num + 1)%Z.

(** Lines 87-99: the record appended for [week_num]. *)
Definition week_plan (skill : string) (videos_per_week articles_per_week : Z)
    (videos : list YouTube.VideoResource)
    (articles : list Medium.ArticleResource) (week_num : nat) : WeekPlan :=
  let n := Z.of_nat week_num in
  {| week := (n + 1)%Z;
     theme := theme_of week_num;
     videos := Py.slice videos (n * videos_per_week) ((n + 1) * videos_per_week);
     articles :=
       Py.slice articles (n * articles_per_week) ((n + 1) * articles_per_week);
     activities := _suggest_activities n skill |}.

(** Lines 65-100: everything after the two adapter calls, as a function of
    what the adapters returned. *)
Definition assemble (skill : string) (weeks videos_per_week articles_per_week : Z)
    (videos : list YouTube.VideoResource)
    (articles : list Medium.ArticleResource) : list WeekPlan :=
  let total_videos := (weeks * videos_per_week)%Z in
  let total_articles := (weeks * articles_per_week)%Z in
  let videos := if negb (Py.truthy videos) then [] else videos in
  let articles := if negb (Py.truthy articles) then [] else articles in
  let videos := pad total_videos videos in
  let articles := pad total_articles articles in
  week_plan skill videos_per_week articles_per_week videos articles
    <$> Py.range weeks.

Section Generate.

Variable build : string -> YouTube.Service.
Variable parse_duration : string -> option Z.
Variable feedparser_parse : string -> list (gmap string string).
Variable str_lower : list N -> list N.

Definition generate_learning_path (skill youtube_api_key : string)
    (weeks videos_per_week articles_per_week : Z) (search_order : string)
  : result (list WeekPlan) :=
  let total_videos := (weeks * videos_per_week)%Z in
  let total_articles := (weeks * articles_per_week)%Z in
  let video_query := skill +:+ " tutorial" in
  videos ← YouTube.search_videos build parse_duration
             youtube_api_key video_query total_videos search_order;
  let articles :=
    Medium.get_articles_for_tag feedparser_parse (tag_slug str_lower skill)
      total_articles in
  Ok (assemble skill weeks videos_per_week articles_per_week videos articles).

End Generate.

End LearningPath.

(** ** [cli.py] *)

Module Cli.

(** [row[i]] on a row built with a fixed number of cells. *)
Definition cell (row : list string) (i : nat) : string := nth i row "".

(** Lines 104-109: the rows of the video table, numbered from 1. *)
Definition video_rows (videos : list YouTube.VideoResource)
  : list (list string) :=
  imap (λ i vid,
          [pretty (S i); YouTube.title vid;
           Py.str_or (YouTube.duration vid) "--"; YouTube.url vid])
       videos.

(** Lines 126-130: the rows of the article table. *)
Definition article_rows (articles : list Medium.ArticleResource)
  : list (list string) :=
  imap (λ i art, [pretty (S i); Medium.title art; Medium.url art]) articles.

(** Line 120. *)
Definition video_line (row : list string) : string :=
  "    " +:+ cell row 0 +:+ ". " +:+ cell row 1 +:+ " (" +:+ cell row 2
  +:+ ") – " +:+ cell row 3.

(** Line 141. *)
Definition article_line (row : list string) : string :=
  "    " +:+ cell row 0 +:+ ". " +:+ cell row 1 +:+ " – " +:+ cell row 2.

Section Printing.

(** The optional [tabulate] import, applied with [tablefmt="github"]:
    [None] when the package is not installed. *)
Variable tabulate : option (list (list string) → list string → string).

(** Lines 110-120 and 131-141: a table in one [print] call, or one call
    per row. *)
Definition print_rows (use_table : bool) (headers : list string)
    (line : list string → string) (rows : list (list string)) : list string :=
  match tabulate with
  | Some table => if use_table then [table rows headers] else line <$> rows
  | None => line <$> rows
  end.

(** Lines 95-146: the [print] calls made for one week, in order; each
    element is the text of one call. *)
Definition print_week (use_table : bool) (week : LearningPath.WeekPlan)
  : list string :=
  [String "010" ("Week " +:+ pretty (LearningPath.week week) +:+ ": "
                 +:+ LearningPath.theme week)]
  ++ (if Py.truthy (LearningPath.videos week) then
        "  Videos:"
        :: print_rows use_table ["#"; "Title"; "Duration"; "URL"] video_line
             (video_rows (LearningPath.videos week))
      else ["  Videos: None"])
  ++ (if Py.truthy (LearningPath.articles week) then
        "  Articles:"
        :: print_rows use_table ["#"; "Title"; "URL"] article_line
             (article_rows (LearningPath.articles week))
      else ["  Articles: None"])
  ++ ["  Suggested activities:";
      "    " +:+ LearningPath.activities week].

(** [print_learning_plan]: what is written to the standard output, one
    element per [print] call. *)
Definition print_learning_plan (plan : list LearningPath.WeekPlan)
    (use_table : bool) : list string :=
  plan ≫= print_week use_table.

End Printing.

End Cli.

(** ** Reference notions the properties are stated against *)

Module Spec.

Section Cycle.
Context {A : Type}.

(** The first [n] elements of the infinite repetition [s s s ...]: the
    element at position [i] is the one at index [i mod len(s)]. *)
Definition cyclic_prefix (s : list A) (n : nat) : list A :=
  match s with
  | [] => []
  | d :: _ => (fun i => nth (i mod length s) s d) <$> seq 0 n
  end.

End Cycle.

(** The text begins with white space. *)
Definition starts_space (s : list N) : bool :=
  match s with
  | [] => false
  | c :: _ => Py.isspace c
  end.

(** The pieces of a text between its maximal runs of white space, in
    order, with an empty piece before a leading run and after a trailing
    one (what [re.split(r"\s+", s)] returns). *)
Fixpoint fields (s : list N) : list (list N) :=
  match s with
  | [] => [[]]
  | c :: s' =>
      if Py.isspace c then
        if starts_space s' then fields s' else [] :: fields s'
      else
        match fields s' with
        | f :: fs => (c :: f) :: fs
        | [] => [[c]]
        end
  end.

(** [sep.join(pieces)]. *)
Fixpoint join (sep : list N) (pieces : list (list N)) : list N :=
  match pieces with
  | [] => []
  | [piece] => piece
  | piece :: rest => piece ++ sep ++ join sep rest
  end.

(** A text without its leading white space, and without its trailing
    white space: the leading white space of its mirror image. *)
Definition trim (s : list N) : list N :=
  reverse (Py.lstrip (reverse (Py.lstrip s))).

(** Trimmed, lower-cased, each run of white space that is left replaced by
    one hyphen: the pieces between the runs, joined by hyphens. *)
Definition slug (str_lower : list N → list N) (skill : string) : string :=
  Py.encode
    (join (Py.decode "-") (fields (str_lower (trim (Py.decode skill))))).

Definition digit_char (d : Z) : ascii := ascii_of_nat (48 + Z.to_nat d).

(** Two decimal digits, the first one possibly a zero. *)
Definition two_digits (n : Z) : string :=
  String (digit_char (n / 10)) (String (digit_char (n mod 10)) "").

(** The text [M:SS] of [total] whole seconds. *)
Definition minutes_seconds (total : Z) : string :=
  pretty (total / 60)%Z +:+ ":" +:+ two_digits (total mod 60).

(** The text contains a colon. *)
Fixpoint has_colon (s : string) : bool :=
  match s with
  | EmptyString => false
  | String c s' => Ascii.eqb c ":" || has_colon s'
  end.

(** A string of the form [M:SS]. *)
Definition minutes_seconds_form (s : string) : Prop :=
  ∃ m sec : Z, (0 ≤ sec < 60)%Z ∧ s = pretty m +:+ ":" +:+ two_digits sec.

End Spec.

(** ** Concrete services and feeds for the runs below *)

Module Samples.

Definition is_digit (c : ascii) : bool :=
  let n := nat_of_ascii c in (48 <=? n)%nat && (n <=? 57)%nat.

Fixpoint span_digits (s : string) : string * string :=
  match s with
  | EmptyString => ("", "")
  | String c s' =>
      if is_digit c then
        let '(d, r) := span_digits s' in (String c d, r)
      else ("", s)
  end.

Fixpoint Z_of_digits (acc : Z) (d : string) : Z :=
  match d with
  | EmptyString => acc
  | String c d' => Z_of_digits (10 * acc + Z.of_nat (nat_of_ascii c - 48)) d'
  end.

(** An optional component [<digits><unit>] at the head of [s]. *)
Definition read_component (unit : ascii) (s : string) : Z * string :=
  match span_digits s with
  | (String _ _ as d, String u r) =>
      if Ascii.eqb u unit then (Z_of_digits 0 d, r) else (0%Z, s)
  | _ => (0%Z, s)
  end.

(** [isodate.parse_duration] on the time-only designator form
    [PT<h>H<m>M<s>S] with whole numbers, which is the form of the
    durations in the runs below; like the library, it rejects a text that
    does not begin with [P]. It stands in for the library in concrete runs
    only: the general statements hold for every parser. *)
Definition parse_duration (s : string) : option Z :=
  match s with
  | String "P" (String "T" t) =>
      let '(h, t) := read_component "H" t in
      let '(m, t) := read_component "M" t in
      let '(sec, t) := read_component "S" t in
      if String.eqb t "" then Some (h * 3600 + m * 60 + sec)%Z else None
  | _ => None
  end.

(** [str.lower] on a text whose cased letters are all ASCII: it lowers
    A-Z and leaves every other code point. It stands in for the Unicode
    case mapping in concrete runs only: the general statements hold for
    every mapping. *)
Definition str_lower (s : list N) : list N :=
  (λ c, if (65 <=? c)%N && (c <=? 90)%N then (c + 32)%N else c) <$> s.

Definition two_items : list YouTube.SearchItem :=
  [ {| YouTube.item_videoId := "abc";
       YouTube.item_snippet :=
         Some {[ "title" := "Intro"; "channelTitle" := "Chan" ]} |};
    {| YouTube.item_videoId := "xyz"; YouTube.item_snippet := None |} ].

(** The search finds two videos; the details request knows the first. *)
Definition service (details : list YouTube.DetailItem) : YouTube.Service :=
  {| YouTube.search_list := fun _ _ _ => Ok (Some two_items);
     YouTube.videos_list := fun _ => Ok (Some details) |}.

Definition details_iso : list YouTube.DetailItem :=
  [ {| YouTube.detail_id := "abc"; YouTube.detail_duration := "PT2M5S" |} ].

Definition details_unparsable : list YouTube.DetailItem :=
  [ {| YouTube.detail_id := "abc"; YouTube.detail_duration := "unknown" |} ].

(** The search request fails below the API layer. *)
Definition service_search_unreachable : YouTube.Service :=
  {| YouTube.search_list := fun _ _ _ => Raise OtherException;
     YouTube.videos_list := fun _ => Ok None |}.

(** The details request fails below the API layer. *)
Definition service_details_unreachable : YouTube.Service :=
  {| YouTube.search_list := fun _ _ _ => Ok (Some two_items);
     YouTube.videos_list := fun _ => Raise OtherException |}.

(** The search request is refused by the API. *)
Definition service_search_refused : YouTube.Service :=
  {| YouTube.search_list := fun _ _ _ => Raise HttpError;
     YouTube.videos_list := fun _ => Ok None |}.

(** The same, with a details request that would fail if it were made. *)
Definition service_search_refused_too : YouTube.Service :=
  {| YouTube.search_list := fun _ _ _ => Raise HttpError;
     YouTube.videos_list := fun _ => Raise OtherException |}.

(** A details response that lists the same id twice. *)
Definition details_twice : list YouTube.DetailItem :=
  [ {| YouTube.detail_id := "abc"; YouTube.detail_duration := "PT2M5S" |};
    {| YouTube.detail_id := "abc"; YouTube.detail_duration := "PT1H" |} ].

(** The details request is refused by the API. *)
Definition service_details_refused : YouTube.Service :=
  {| YouTube.search_list := fun _ _ _ => Ok (Some two_items);
     YouTube.videos_list := fun _ => Raise HttpError |}.

(** A feed of three entries; the second has only an [updated] date and
    the third has no field at all. *)
Definition feed (_ : string) : list (gmap string string) :=
  [ {[ "title" := "A"; "link" := "https://a"; "published" := "Mon";
       "summary" := "s" ]};
    {[ "title" := "B"; "updated" := "Tue" ]};
    ∅ ].

Definition empty_feed (_ : string) : list (gmap string string) := [].

(** The search finds one video, whose duration the details request gives. *)
Definition service_one_video : YouTube.Service :=
  {| YouTube.search_list := fun _ _ _ =>
       Ok (Some [ {| YouTube.item_videoId := "abc";
                     YouTube.item_snippet := Some {[ "title" := "Intro" ]} |} ]);
     YouTube.videos_list := fun _ => Ok (Some details_iso) |}.

Definition lone_video : YouTube.VideoResource :=
  {| YouTube.title := "Intro"; YouTube.channel := "";
     YouTube.video_id := "abc";
     YouTube.url := "https://www.youtube.com/watch?v=abc";
     YouTube.published_at := ""; YouTube.duration := "2:05" |}.

(** What [search_videos] makes of [two_items] and [details_iso]. *)
Definition found_videos : list YouTube.VideoResource :=
  [ {| YouTube.title := "Intro"; YouTube.channel := "Chan";
       YouTube.video_id := "abc";
       YouTube.url := "https://www.youtube.com/watch?v=abc";
       YouTube.published_at := ""; YouTube.duration := "2:05" |};
    {| YouTube.title := ""; YouTube.channel := "";
       YouTube.video_id := "xyz";
       YouTube.url := "https://www.youtube.com/watch?v=xyz";
       YouTube.published_at := ""; YouTube.duration := "" |} ].

End Samples.

(** * Properties *)

(** ** Slices *)

Section SliceFacts.
Context {A : Type}.
Implicit Types l : list A.

Lemma slice_window l (a b : Z) :
  (0 ≤ a ≤ b)%Z →
  Py.slice l a b = take (Z.to_nat (b - a)) (drop (Z.to_nat a) l).
Proof.
  intros Hab. unfold Py.slice, Py.clamp_index.
  destruct (Z.ltb_spec a 0) as [|_]; [lia|].
  destruct (Z.ltb_spec b 0) as [|_]; [lia|].
  destruct (Z.le_gt_cases a (Z.of_nat (length l))) as [Ha|Ha].
  - rewrite (Z.min_l a) by lia.
    destruct (Z.le_gt_cases b (Z.of_nat (length l))) as [Hb|Hb].
    + by rewrite (Z.min_l b) by lia.
    + rewrite (Z.min_r b) by lia.
      rewrite !take_ge; [done | rewrite length_drop; lia ..].
  - rewrite !Z.min_r by lia.
    rewrite Z.sub_diag, Nat2Z.id. simpl.
    rewrite (drop_ge l (Z.to_nat a)) by lia. by rewrite take_nil.
Qed.

Lemma slice_to_take l (n : Z) :
  (0 ≤ n)%Z → Py.slice_to l n = take (Z.to_nat n) l.
Proof.
  intros Hn. unfold Py.slice_to. rewrite slice_window by lia.
  by rewrite Z.sub_0_r.
Qed.

End SliceFacts.

(** ** The padding loop *)

Section PaddingFacts.
Context {A : Type}.
Implicit Types l s : list A.

Lemma loop_guard_true total l :
  LearningPath.loop_guard total l = true ↔
  (Z.of_nat (length l) < total)%Z ∧ l ≠ [].
Proof.
  unfold LearningPath.loop_guard.
  rewrite andb_true_iff, bool_decide_eq_true.
  destruct l; simpl; intuition congruence.
Qed.

Lemma loop_guard_false total l :
  LearningPath.loop_guard total l = false ↔
  (total ≤ Z.of_nat (length l))%Z ∨ l = [].
Proof.
  unfold LearningPath.loop_guard.
  rewrite andb_false_iff, bool_decide_eq_false.
  destruct l; simpl; split; intros [?|?]; try done;
    first [left; lia | by right].
Qed.

Lemma extend_until_unfold total l :
  LearningPath.extend_until total l =
  if LearningPath.loop_guard total l
  then LearningPath.extend_until total (l ++ l) else l.
Proof.
  funelim (LearningPath.extend_until total l).
  - by rewrite e.
  - by rewrite e.
Qed.

(** Induction along the iterations of the loop: [P l r] relates a state
    [l] of the list to the list [r] the loop ends with. *)
Lemma extend_until_ind (total : Z) (P : list A → list A → Prop) :
  (∀ l, LearningPath.loop_guard total l = false → P l l) →
  (∀ l r, LearningPath.loop_guard total l = true → P (l ++ l) r → P l r) →
  ∀ l, P l (LearningPath.extend_until total l).
Proof.
  intros Hexit Hiter l.
  funelim (LearningPath.extend_until total l); [|by apply Hexit].
  apply Hiter; [done|]. by apply H.
Qed.

Lemma extend_until_nil total : LearningPath.extend_until total (@nil A) = [].
Proof.
  rewrite extend_until_unfold. unfold LearningPath.loop_guard. simpl.
  by rewrite andb_false_r.
Qed.

Lemma extend_until_final total l :
  LearningPath.loop_guard total (LearningPath.extend_until total l) = false.
Proof.
  apply (extend_until_ind total
    (λ _ r, LearningPath.loop_guard total r = false)); auto.
Qed.

Lemma extend_until_length_le total l :
  (length l ≤ length (LearningPath.extend_until total l))%nat.
Proof.
  apply (extend_until_ind total (λ l r : list A, (length l ≤ length r)%nat));
    [lia|].
  intros l0 r _. rewrite length_app. lia.
Qed.

(** The loop only ever holds whole copies of the list it started from. *)
Lemma extend_until_copies total s l :
  (∃ k, (1 ≤ k)%nat ∧ l = mjoin (replicate k s)) →
  ∃ k, (1 ≤ k)%nat ∧ LearningPath.extend_until total l = mjoin (replicate k s).
Proof.
  apply (extend_until_ind total (λ l r : list A,
    (∃ k, (1 ≤ k)%nat ∧ l = mjoin (replicate k s)) →
    ∃ k, (1 ≤ k)%nat ∧ r = mjoin (replicate k s))); [done|].
  clear l. intros l r _ IH (k & Hk & ->). apply IH.
  exists (k + k). split; [lia|].
  by rewrite replicate_add, join_app.
Qed.

Lemma length_copies s k :
  length (mjoin (replicate k s)) = (k * length s)%nat.
Proof.
  induction k as [|k IH]; [done|]. simpl. rewrite length_app, IH. lia.
Qed.

Lemma lookup_copies s k i :
  (i < k * length s)%nat →
  mjoin (replicate k s) !! i = s !! (i mod length s)%nat.
Proof.
  revert i. induction k as [|k IH]; intros i Hi; [lia|].
  simpl. destruct (decide (i < length s)) as [Hlt|Hge].
  - rewrite lookup_app_l by done. by rewrite Nat.mod_small.
  - rewrite lookup_app_r by lia. rewrite IH by (simpl in Hi; lia).
    f_equal. replace i with ((i - length s) + 1 * length s) at 2 by lia.
    by rewrite Nat.Div0.mod_add.
Qed.

Lemma lookup_cyclic_prefix s n i :
  s ≠ [] → (i < n)%nat →
  Spec.cyclic_prefix s n !! i = s !! (i mod length s)%nat.
Proof.
  intros Hs Hi. unfold Spec.cyclic_prefix. destruct s as [|d s']; [done|].
  remember (d :: s') as s eqn:Es.
  assert (Hlen : 0 < length s) by (subst s; simpl; lia).
  rewrite list_lookup_fmap, lookup_seq_lt by done.
  destruct (lookup_lt_is_Some_2 s (i mod length s)) as [x Hx].
  { apply Nat.mod_upper_bound. lia. }
  rewrite Hx. cbn. f_equal. by apply nth_lookup_Some.
Qed.

(** What lines 71-76 leave in the list when the adapter returned
    something: exactly [total] elements, those of the cycle. *)
Lemma pad_cyclic s (total : Z) :
  s ≠ [] → (0 ≤ total)%Z →
  LearningPath.pad total s = Spec.cyclic_prefix s (Z.to_nat total).
Proof.
  intros Hs Htotal. unfold LearningPath.pad.
  rewrite slice_to_take by done.
  destruct (extend_until_copies total s s) as (k & Hk & Hcopies).
  { exists 1. split; [done|]. simpl. by rewrite app_nil_r. }
  pose proof (extend_until_final total s) as Hfinal.
  apply loop_guard_false in Hfinal as [Hlen | Hnil]; last first.
  { pose proof (extend_until_length_le total s) as Hle.
    rewrite Hnil in Hle. destruct s; [done | simpl in Hle; lia]. }
  rewrite Hcopies in Hlen |- *.
  rewrite length_copies in Hlen.
  apply list_eq. intros i.
  destruct (decide (i < Z.to_nat total)) as [Hi|Hi].
  - rewrite lookup_take_lt by done.
    rewrite lookup_copies by lia.
    by rewrite lookup_cyclic_prefix.
  - rewrite lookup_take_ge by lia.
    symmetry. apply lookup_ge_None_2.
    unfold Spec.cyclic_prefix. destruct s; [done|].
    rewrite length_fmap, length_seq. lia.
Qed.

End PaddingFacts.

Section PaddingLoopRuns.
Context {A : Type}.
Implicit Types l s : list A.

Lemma extend_step_grows total l l' :
  LearningPath.extend_step total l l' → (length l < length l')%nat.
Proof.
  intros [l0 Hguard]. apply loop_guard_true in Hguard as [_ Hne].
  rewrite length_app. destruct l0; [done | simpl; lia].
Qed.

Lemma extend_step_nf total l :
  LearningPath.loop_guard total l = false →
  nf (LearningPath.extend_step total) l.
Proof.
  intros Hguard [l' Hstep]. inversion Hstep; congruence.
Qed.

(** No run of the loop is infinite: every iteration brings the length
    closer to [total]. *)
Lemma extend_step_sn total l : sn (LearningPath.extend_step total) l.
Proof.
  remember (Z.to_nat (total - Z.of_nat (length l))) as m eqn:Hm.
  revert l Hm. induction (lt_wf m) as [m _ IH]. intros l ->.
  constructor. intros l' Hstep. unfold flip in Hstep.
  pose proof (extend_step_grows _ _ _ Hstep) as Hgrow.
  destruct Hstep as [l Hguard].
  apply loop_guard_true in Hguard as [Hlt _].
  eapply IH; [|done]. lia.
Qed.

Lemma extend_until_run total l :
  rtc (LearningPath.extend_step total) l (LearningPath.extend_until total l).
Proof.
  apply (extend_until_ind total (rtc (LearningPath.extend_step total))).
  - intros; apply rtc_refl.
  - intros l0 r Hguard Hrest. eapply rtc_l; [|done]. by constructor.
Qed.

End PaddingLoopRuns.

(** C9: the padding loop of [generate_learning_path] terminates for every
    list [s] and required total [n]. From any state only finitely many
    iterations can follow, the loop does run from [s] to the list
    [extend_until n s] and stops there, every iteration makes the list
    strictly longer, and from the empty list no iteration is taken. *)
Theorem padding_loop_terminates (A : Type) (s : list A) (n : Z) :
  sn (LearningPath.extend_step n) s
  ∧ rtc (LearningPath.extend_step n) s (LearningPath.extend_until n s)
  ∧ nf (LearningPath.extend_step n) (LearningPath.extend_until n s)
  ∧ (∀ l l' : list A,
       LearningPath.extend_step n l l' → (length l < length l')%nat)
  ∧ nf (LearningPath.extend_step n) (@nil A)
  ∧ LearningPath.extend_until n (@nil A) = [].
Proof.
  split; [apply extend_step_sn|].
  split; [apply extend_until_run|].
  split; [apply extend_step_nf, extend_until_final|].
  split; [apply extend_step_grows|].
  split; [|apply extend_until_nil].
  apply extend_step_nf. by apply loop_guard_false; right.
Qed.

(** C2: for a non-empty raw sequence [s] and a required total [n], the
    padding step (extend the list by itself until it has [n] elements, then
    cut it to [n]) yields the first [n] elements of the infinite cyclic
    repetition of [s]; three elements padded to seven are the elements at
    the cyclic indices 0,1,2,0,1,2,0. *)
Theorem padding_is_cyclic_prefix (A : Type) (s : list A) (n : Z) :
  s ≠ [] → (0 ≤ n)%Z →
  LearningPath.pad n s = Spec.cyclic_prefix s (Z.to_nat n)
  ∧ (∀ i : nat, (i < Z.to_nat n)%nat →
       LearningPath.pad n s !! i = s !! (i mod length s)%nat)
  ∧ (∀ a b c : A, LearningPath.pad 7 [a; b; c] = [a; b; c; a; b; c; a]).
Proof.
  intros Hs Hn. split; [by apply pad_cyclic|]. split.
  - intros i Hi. rewrite pad_cyclic by done. by apply lookup_cyclic_prefix.
  - intros a b c. by rewrite pad_cyclic.
Qed.

Lemma padding_is_cyclic_prefix_witness :
  LearningPath.pad 5 [10%Z; 20%Z] = Spec.cyclic_prefix [10%Z; 20%Z] 5.
Proof.
  apply (padding_is_cyclic_prefix Z [10%Z; 20%Z] 5); [done | lia].
Defined.

(** ** The assembled plan *)

Lemma sum_list_with_fmap {B C : Type} (f : C → nat) (g : B → C) (l : list B) :
  sum_list_with f (g <$> l) = sum_list_with (f ∘ g) l.
Proof. induction l as [|x l IH]; [done|]. csimpl. by rewrite IH. Qed.

Lemma sum_list_with_const {B : Type} (f : B → nat) (c : nat) (l : list B) :
  (∀ x, x ∈ l → f x = c) → sum_list_with f l = (length l * c)%nat.
Proof.
  induction l as [|x l IH]; intros Hc; [done|]. simpl.
  rewrite (Hc x) by left. rewrite IH; [lia|].
  intros y Hy. apply Hc. by right.
Qed.

Section AssembleFacts.
Context {A : Type}.
Implicit Types l : list A.

Lemma truthy_normalise l : (if negb (Py.truthy l) then [] else l) = l.
Proof. by destruct l. Qed.

Lemma length_pad l (total : Z) :
  (0 ≤ total)%Z →
  length (LearningPath.pad total l) =
  if Py.truthy l then Z.to_nat total else 0%nat.
Proof.
  intros Htotal. destruct l as [|x l].
  - unfold LearningPath.pad. rewrite extend_until_nil.
    by rewrite slice_to_take, take_nil.
  - rewrite pad_cyclic by done. simpl.
    by rewrite length_fmap, length_seq.
Qed.

(** The slice of week [i] is full when the list holds [weeks] slices. *)
Lemma length_week_slice l (weeks per_week : Z) (i : nat) :
  (0 ≤ per_week)%Z → (Z.of_nat i < weeks)%Z →
  length l = Z.to_nat (weeks * per_week) →
  length (Py.slice l (Z.of_nat i * per_week) ((Z.of_nat i + 1) * per_week))
  = Z.to_nat per_week.
Proof.
  intros Hper Hi Hlen. rewrite slice_window by nia.
  rewrite length_take, length_drop, Hlen.
  replace ((Z.of_nat i + 1) * per_week - Z.of_nat i * per_week)%Z
    with per_week by lia.
  assert ((Z.of_nat i + 1) * per_week ≤ weeks * per_week)%Z by nia.
  assert (0 ≤ Z.of_nat i * per_week)%Z by nia.
  lia.
Qed.

Lemma slice_nil (a b : Z) : Py.slice (@nil A) a b = [].
Proof. unfold Py.slice. by rewrite drop_nil, take_nil. Qed.

(** The sum of the slice lengths over the weeks of a padded list. *)
Lemma sum_week_slices l (weeks per_week : Z) :
  (0 ≤ weeks)%Z → (0 ≤ per_week)%Z →
  Z.of_nat (sum_list_with
    (λ i : nat, length (Py.slice (LearningPath.pad (weeks * per_week) l)
       (Z.of_nat i * per_week) ((Z.of_nat i + 1) * per_week)))
    (Py.range weeks))
  = if Py.truthy l then (weeks * per_week)%Z else 0%Z.
Proof.
  intros Hweeks Hper.
  pose proof (length_pad l (weeks * per_week) ltac:(nia)) as Hlen.
  destruct (Py.truthy l) eqn:Hl.
  - rewrite (sum_list_with_const _ (Z.to_nat per_week)).
    + unfold Py.range. rewrite length_seq. nia.
    + intros i Hi. apply elem_of_seq in Hi.
      apply length_week_slice with (weeks := weeks); [done | lia | done].
  - rewrite (sum_list_with_const _ 0%nat); [lia|].
    intros i _. apply nil_length_inv in Hlen. rewrite Hlen.
    by rewrite slice_nil.
Qed.

End AssembleFacts.

Section GenerateFacts.

Variable build : string → YouTube.Service.
Variable parse_duration : string → option Z.
Variable feedparser_parse : string → list (gmap string string).
Variable str_lower : list N → list N.

(** The plan is returned exactly when the video adapter returns, and it is
    the assembly of what the two adapters returned. *)
Lemma generate_learning_path_Ok skill key weeks vpw apw order plan :
  LearningPath.generate_learning_path build parse_duration feedparser_parse
    str_lower skill key weeks vpw apw order = Ok plan ↔
  ∃ videos,
    YouTube.search_videos build parse_duration
      key (skill +:+ " tutorial") (weeks * vpw)%Z order = Ok videos
    ∧ plan = LearningPath.assemble skill weeks vpw apw videos
        (Medium.get_articles_for_tag feedparser_parse
           (LearningPath.tag_slug str_lower skill) (weeks * apw)%Z).
Proof.
  unfold LearningPath.generate_learning_path.
  destruct (YouTube.search_videos _ _ _ _ _ _) as [videos|e]; simpl.
  - split; [intros [= <-]; eauto | by intros (? & [= <-] & ->)].
  - split; [done | by intros (? & ? & _)].
Qed.

Lemma assemble_length skill weeks vpw apw videos articles :
  length (LearningPath.assemble skill weeks vpw apw videos articles)
  = Z.to_nat weeks.
Proof.
  unfold LearningPath.assemble, Py.range.
  by rewrite length_fmap, length_seq.
Qed.

Lemma assemble_lookup skill weeks vpw apw videos articles (i : nat) w :
  LearningPath.assemble skill weeks vpw apw videos articles !! i = Some w ↔
  (i < Z.to_nat weeks)%nat
  ∧ w = LearningPath.week_plan skill vpw apw
          (LearningPath.pad (weeks * vpw) videos)
          (LearningPath.pad (weeks * apw) articles) i.
Proof.
  unfold LearningPath.assemble, Py.range.
  rewrite !truthy_normalise, list_lookup_fmap.
  destruct (decide (i < Z.to_nat weeks)%nat) as [Hi|Hi].
  - rewrite lookup_seq_lt by done. simpl.
    split; [by intros [= <-] | by intros [_ ->]].
  - rewrite lookup_seq_ge by lia. simpl.
    split; [done | by intros [? _]].
Qed.

End GenerateFacts.

(** C1: for [weeks], [videos_per_week] and [articles_per_week] all at least
    zero, when the video adapter returns [raw_videos] the plan is returned
    and the lengths of its per-week video lists add up to
    [weeks * videos_per_week] if [raw_videos] is non-empty and to 0 if it
    is empty; the same holds for the articles and [articles_per_week],
    whatever the videos are. *)
Theorem plan_resource_totals
    (build : string → YouTube.Service) (parse_duration : string → option Z)
    (feedparser_parse : string → list (gmap string string))
    (str_lower : list N → list N)
    (skill key : string) (weeks videos_per_week articles_per_week : Z)
    (order : string) (raw_videos : list YouTube.VideoResource) :
  (0 ≤ weeks)%Z → (0 ≤ videos_per_week)%Z → (0 ≤ articles_per_week)%Z →
  YouTube.search_videos build parse_duration key (skill +:+ " tutorial")
    (weeks * videos_per_week)%Z order = Ok raw_videos →
  let raw_articles :=
    Medium.get_articles_for_tag feedparser_parse (LearningPath.tag_slug str_lower skill)
      (weeks * articles_per_week)%Z in
  ∃ plan,
    LearningPath.generate_learning_path build parse_duration feedparser_parse
      str_lower skill key weeks videos_per_week articles_per_week order = Ok plan
    ∧ length plan = Z.to_nat weeks
    ∧ Z.of_nat (sum_list_with (λ w, length (LearningPath.videos w)) plan)
      = (if Py.truthy raw_videos then weeks * videos_per_week else 0)%Z
    ∧ Z.of_nat (sum_list_with (λ w, length (LearningPath.articles w)) plan)
      = (if Py.truthy raw_articles then weeks * articles_per_week else 0)%Z.
Proof.
  intros Hweeks Hvpw Hapw Hsearch raw_articles.
  eexists. split.
  { apply generate_learning_path_Ok. eauto. }
  fold raw_articles. split; [apply assemble_length|].
  unfold LearningPath.assemble. rewrite !truthy_normalise.
  rewrite !sum_list_with_fmap. unfold compose. simpl.
  split; by apply sum_week_slices.
Qed.

Lemma plan_resource_totals_witness :
  ∃ plan,
    LearningPath.generate_learning_path
      (λ _, Samples.service Samples.details_iso) Samples.parse_duration
      Samples.feed Samples.str_lower "React" "key" 2 1 1 "relevance" = Ok plan
    ∧ length plan = 2%nat
    ∧ Z.of_nat (sum_list_with (λ w, length (LearningPath.videos w)) plan) = 2%Z
    ∧ Z.of_nat (sum_list_with (λ w, length (LearningPath.articles w)) plan) = 2%Z.
Proof.
  exact (plan_resource_totals
           (λ _, Samples.service Samples.details_iso) Samples.parse_duration
           Samples.feed Samples.str_lower "React" "key" 2 1 1 "relevance" Samples.found_videos
           ltac:(lia) ltac:(lia) ltac:(lia) eq_refl).
Defined.

(** ** Themes and activities *)

Lemma theme_of_cases (n : nat) :
  LearningPath.theme_of n =
  match n with
  | 0 => "Foundations"
  | 1 => "Core Concepts"
  | 2 => "Advanced Topics"
  | 3 => "Project & Practice"
  | _ => "Week " +:+ pretty (Z.of_nat n + 1)%Z
  end.
Proof. by destruct n as [|[|[|[|n]]]]. Qed.

(** C6: the themes of the returned plan: the week indices 0 to 3 get
    "Foundations", "Core Concepts", "Advanced Topics" and
    "Project & Practice" in this order, every index [n >= 4] gets
    "Week " followed by [n + 1]; with [weeks = 6] the last two themes are
    "Week 5" and "Week 6". *)
Theorem plan_themes
    (build : string → YouTube.Service) (parse_duration : string → option Z)
    (feedparser_parse : string → list (gmap string string))
    (str_lower : list N → list N)
    (skill key : string) (weeks videos_per_week articles_per_week : Z)
    (order : string) (plan : list LearningPath.WeekPlan) :
  (0 ≤ weeks)%Z →
  LearningPath.generate_learning_path build parse_duration feedparser_parse
    str_lower skill key weeks videos_per_week articles_per_week order = Ok plan →
  length plan = Z.to_nat weeks
  ∧ (∀ (n : nat) (w : LearningPath.WeekPlan),
       plan !! n = Some w →
       LearningPath.theme w =
       match n with
       | 0 => "Foundations"
       | 1 => "Core Concepts"
       | 2 => "Advanced Topics"
       | 3 => "Project & Practice"
       | _ => "Week " +:+ pretty (Z.of_nat n + 1)%Z
       end)
  ∧ (weeks = 6%Z →
       LearningPath.theme <$> plan =
       ["Foundations"; "Core Concepts"; "Advanced Topics";
        "Project & Practice"; "Week 5"; "Week 6"]).
Proof.
  intros _ Hplan. apply generate_learning_path_Ok in Hplan as (videos & _ & ->).
  split; [apply assemble_length|]. split.
  - intros n w Hw. apply assemble_lookup in Hw as [_ ->].
    apply theme_of_cases.
  - intros ->. reflexivity.
Qed.

Lemma plan_themes_witness :
  ∃ plan,
    LearningPath.generate_learning_path
      (λ _, Samples.service Samples.details_iso) Samples.parse_duration
      Samples.feed Samples.str_lower "React" "key" 6 1 1 "relevance" = Ok plan
    ∧ LearningPath.theme <$> plan =
      ["Foundations"; "Core Concepts"; "Advanced Topics";
       "Project & Practice"; "Week 5"; "Week 6"].
Proof.
  eexists. split; [reflexivity|].
  refine (proj2 (proj2 (plan_themes
    (λ _, Samples.service Samples.details_iso) Samples.parse_duration
    Samples.feed Samples.str_lower "React" "key" 6 1 1 "relevance" _ ltac:(lia) eq_refl)) eq_refl).
Defined.

Lemma suggest_activities_cases (i : nat) (skill : string) :
  LearningPath._suggest_activities (Z.of_nat i) skill =
  match i with
  | 0 =>
      "Set up your environment for " +:+ skill +:+ ". Work through basic examples "
      +:+ "covered in the videos and summarise the key concepts in your own words."
  | 1 =>
      "Experiment with building small components or programs using " +:+ skill +:+ ". "
      +:+ "Complete exercises from articles and implement variations."
  | 2 =>
      "Apply what you’ve learned to a mini‑project. Focus on more advanced features "
      +:+ "and read deeper resources."
  | _ =>
      "Develop a capstone project incorporating multiple concepts of " +:+ skill +:+ ". "
      +:+ "Write a blog post or create a video summarising your project and share it."
  end.
Proof.
  destruct i as [|[|[|i]]]; [reflexivity..|].
  unfold LearningPath._suggest_activities.
  rewrite !(proj2 (Z.eqb_neq _ _)) by lia. reflexivity.
Qed.

(** The four texts differ, and an index from 3 on always gives the fourth. *)
Lemma suggest_activities_same (i j : nat) (skill : string) :
  LearningPath._suggest_activities (Z.of_nat i) skill
  = LearningPath._suggest_activities (Z.of_nat j) skill
  ↔ i `min` 3 = j `min` 3.
Proof.
  rewrite !suggest_activities_cases.
  destruct i as [|[|[|i]]], j as [|[|[|j]]];
    (split; [intros H; first [lia | cbn in H; discriminate H] | intros H; first [done | lia]]).
Qed.

(** The text of index 2 is the same for every skill. *)
Lemma suggest_activities_2_fixed (skill skill' : string) :
  LearningPath._suggest_activities 2 skill
  = LearningPath._suggest_activities 2 skill'.
Proof. reflexivity. Qed.

(** C3, as the code has it: the activities text of a week depends on the
    week index capped at 3, not on the index modulo 4. Week [i] of the
    plan gets [_suggest_activities i skill]: one text for each of the
    indices 0, 1 and 2 and a fourth text for every index from 3 on, so two
    weeks have the same text exactly when their indices capped at 3 are
    equal. The texts of the indices 0, 1 and from 3 on contain the skill
    name; the text of index 2 is fixed. *)
Theorem plan_activities
    (build : string → YouTube.Service) (parse_duration : string → option Z)
    (feedparser_parse : string → list (gmap string string))
    (str_lower : list N → list N)
    (skill key : string) (weeks videos_per_week articles_per_week : Z)
    (order : string) (plan : list LearningPath.WeekPlan) :
  LearningPath.generate_learning_path build parse_duration feedparser_parse
    str_lower skill key weeks videos_per_week articles_per_week order = Ok plan →
  (∀ (i : nat) (w : LearningPath.WeekPlan),
     plan !! i = Some w →
     LearningPath.activities w =
     match i with
     | 0 =>
         "Set up your environment for " +:+ skill +:+ ". Work through basic examples "
         +:+ "covered in the videos and summarise the key concepts in your own words."
     | 1 =>
         "Experiment with building small components or programs using " +:+ skill +:+ ". "
         +:+ "Complete exercises from articles and implement variations."
     | 2 =>
         "Apply what you’ve learned to a mini‑project. Focus on more advanced features "
         +:+ "and read deeper resources."
     | _ =>
         "Develop a capstone project incorporating multiple concepts of " +:+ skill +:+ ". "
         +:+ "Write a blog post or create a video summarising your project and share it."
     end)
  ∧ (∀ (i j : nat) (wi wj : LearningPath.WeekPlan),
       plan !! i = Some wi → plan !! j = Some wj →
       (LearningPath.activities wi = LearningPath.activities wj
        ↔ i `min` 3 = j `min` 3)).
Proof.
  intros Hplan. apply generate_learning_path_Ok in Hplan as (videos & _ & ->).
  split.
  - intros i w Hw. apply assemble_lookup in Hw as [_ ->].
    apply suggest_activities_cases.
  - intros i j wi wj Hi Hj.
    apply assemble_lookup in Hi as [_ ->]. apply assemble_lookup in Hj as [_ ->].
    apply suggest_activities_same.
Qed.

Lemma plan_activities_witness :
  ∃ plan w3 w7,
    LearningPath.generate_learning_path
      (λ _, Samples.service Samples.details_iso) Samples.parse_duration
      Samples.feed Samples.str_lower "React" "key" 8 1 1 "relevance" = Ok plan
    ∧ plan !! 3%nat = Some w3 ∧ plan !! 7%nat = Some w7
    ∧ LearningPath.activities w3 = LearningPath.activities w7.
Proof.
  eexists _, _, _. split; [reflexivity|].
  split; [reflexivity|]. split; [reflexivity|].
  refine (proj2 (proj2 (plan_activities
    (λ _, Samples.service Samples.details_iso) Samples.parse_duration
    Samples.feed Samples.str_lower "React" "key" 8 1 1 "relevance" _ eq_refl)
    3%nat 7%nat _ _ eq_refl eq_refl) eq_refl).
Defined.

(** C3 as stated fails: the weeks of index 0 and 4 agree modulo 4 and get
    different activities. *)
Lemma activities_not_by_index_mod_4 :
  ∃ plan w0 w4,
    LearningPath.generate_learning_path
      (λ _, Samples.service Samples.details_iso) Samples.parse_duration
      Samples.feed Samples.str_lower "React" "key" 5 1 1 "relevance" = Ok plan
    ∧ plan !! 0%nat = Some w0 ∧ plan !! 4%nat = Some w4
    ∧ (0 mod 4 = 4 mod 4)%Z
    ∧ LearningPath.activities w0 ≠ LearningPath.activities w4.
Proof.
  eexists _, _, _. split; [reflexivity|].
  split; [reflexivity|]. split; [reflexivity|].
  split; [reflexivity|]. cbn. discriminate.
Qed.

(** ** The video adapter *)

Section SearchVideosFacts.

Variable build : string → YouTube.Service.
Variable parse_duration : string → option Z.

(** The outcomes of [search_videos], read off its three exits. *)
Lemma search_videos_Ok key q n order results :
  YouTube.search_videos build parse_duration key q n order = Ok results ↔
  (YouTube.search_list (build key) q n order = Raise HttpError ∧ results = [])
  ∨ (∃ response,
       YouTube.search_list (build key) q n order = Ok response
       ∧ default [] response = [] ∧ results = [])
  ∨ (∃ response durations,
       YouTube.search_list (build key) q n order = Ok response
       ∧ default [] response ≠ []
       ∧ YouTube.fetch_durations (build key)
           (YouTube.item_videoId <$> default [] response) = Ok durations
       ∧ results =
           YouTube.video_of_item parse_duration durations <$> default [] response).
Proof.
  unfold YouTube.search_videos.
  destruct (YouTube.search_list _ _ _ _) as [response|[]].
  - destruct (default [] response) as [|item items] eqn:Hitems; csimpl.
    + split; [intros [= <-]; right; left; eauto|].
      intros [[? _]|[(? & _ & _ & ->)|(? & ? & ? & Hne & _)]];
        simplify_eq; congruence.
    + destruct (YouTube.fetch_durations _ _) as [durations|e] eqn:Hd; csimpl.
      * split.
        -- intros [= <-]. right; right. exists response, durations.
           by rewrite Hitems.
        -- intros [[? _]|[(? & ? & Hnil & _)|(? & ? & ? & _ & Hd' & ->)]];
             simplify_eq; [congruence|].
           rewrite Hitems in Hd' |- *. csimpl in *. congruence.
      * split; [done|].
        intros [[? _]|[(? & ? & Hnil & _)|(? & ? & ? & _ & Hd' & _)]];
          simplify_eq; [congruence|].
        rewrite Hitems in Hd'. csimpl in *. congruence.
  - split; [intros [= <-]; by left|].
    intros [[_ ->]|[(? & ? & _)|(? & ? & ? & _)]]; simplify_eq; done.
  - split; [done|].
    intros [[? _]|[(? & ? & _)|(? & ? & ? & _)]]; simplify_eq.
Qed.

Lemma search_videos_Raise key q n order e :
  YouTube.search_videos build parse_duration key q n order = Raise e ↔
  e = OtherException
  ∧ (YouTube.search_list (build key) q n order = Raise OtherException
     ∨ ∃ response,
         YouTube.search_list (build key) q n order = Ok response
         ∧ default [] response ≠ []
         ∧ YouTube.videos_list (build key)
             (String.concat "," (YouTube.item_videoId <$> default [] response))
           = Raise OtherException).
Proof.
  unfold YouTube.search_videos, YouTube.fetch_durations.
  destruct (YouTube.search_list _ _ _ _) as [response|[]].
  - destruct (default [] response) as [|item items] eqn:Hitems; csimpl.
    + split; [done|]. intros [_ [?|(? & ? & Hne & _)]]; simplify_eq.
    + destruct (YouTube.videos_list _ _) as [?|[]] eqn:Hv; csimpl.
      * split; [done|]. intros [_ [?|(? & ? & _ & Hv')]]; simplify_eq.
        rewrite Hitems in Hv'. csimpl in *. congruence.
      * split; [done|]. intros [_ [?|(? & ? & _ & Hv')]]; simplify_eq.
        rewrite Hitems in Hv'. csimpl in *. congruence.
      * split.
        -- intros [= <-]. split; [done|]. right. exists response.
           by rewrite Hitems.
        -- by intros [-> _].
  - split; [done|]. intros [_ [?|(? & ? & _)]]; simplify_eq.
  - split; [intros [= <-]; by eauto|]. by intros [-> _].
Qed.

End SearchVideosFacts.

(** C10: every [VideoResource] that [search_videos] returns has as [url]
    the text "https://www.youtube.com/watch?v=" followed by its own
    [video_id]. *)
Theorem video_url_of_video_id
    (build : string → YouTube.Service) (parse_duration : string → option Z)
    (key query : string) (max_results : Z) (order : string)
    (results : list YouTube.VideoResource) :
  YouTube.search_videos build parse_duration key query max_results order
    = Ok results →
  ∀ v : YouTube.VideoResource,
    v ∈ results →
    YouTube.url v = "https://www.youtube.com/watch?v=" +:+ YouTube.video_id v.
Proof.
  intros Hres v Hv.
  apply search_videos_Ok in Hres
    as [[_ ->]|[(? & _ & _ & ->)|(response & durations & _ & _ & _ & ->)]].
  - by apply elem_of_nil in Hv.
  - by apply elem_of_nil in Hv.
  - apply list_elem_of_fmap in Hv as (item & -> & _). reflexivity.
Qed.

Lemma video_url_of_video_id_witness :
  Forall (λ v : YouTube.VideoResource,
            YouTube.url v
            = "https://www.youtube.com/watch?v=" +:+ YouTube.video_id v)
         Samples.found_videos.
Proof.
  apply Forall_forall.
  exact (video_url_of_video_id
           (λ _, Samples.service Samples.details_iso) Samples.parse_duration
           "key" "React tutorial" 2 "relevance" Samples.found_videos eq_refl).
Defined.

(** C5, as the code has it: [search_videos] never lets an [HttpError] of
    one of its two requests reach the caller. An [HttpError] of the search
    request gives the empty list; an [HttpError] of the details request
    gives every item of the search, in order, each with an empty duration.
    An exception of another class is not handled: when the search request,
    or the details request after a search with results, raises one,
    [search_videos] raises it. *)
Theorem search_videos_error_handling
    (build : string → YouTube.Service) (parse_duration : string → option Z)
    (key query : string) (max_results : Z) (order : string) :
  let youtube := build key in
  let outcome :=
    YouTube.search_videos build parse_duration key query max_results order in
  outcome ≠ Raise HttpError
  ∧ (YouTube.search_list youtube query max_results order = Raise HttpError →
     outcome = Ok [])
  ∧ (∀ response : option (list YouTube.SearchItem),
       YouTube.search_list youtube query max_results order = Ok response →
       default [] response ≠ [] →
       YouTube.videos_list youtube
         (String.concat "," (YouTube.item_videoId <$> default [] response))
         = Raise HttpError →
       ∃ results,
         outcome = Ok results
         ∧ YouTube.video_id <$> results
           = YouTube.item_videoId <$> default [] response
         ∧ Forall (λ v, YouTube.duration v = "") results)
  ∧ (YouTube.search_list youtube query max_results order
       = Raise OtherException →
     outcome = Raise OtherException)
  ∧ (∀ response : option (list YouTube.SearchItem),
       YouTube.search_list youtube query max_results order = Ok response →
       default [] response ≠ [] →
       YouTube.videos_list youtube
         (String.concat "," (YouTube.item_videoId <$> default [] response))
         = Raise OtherException →
       outcome = Raise OtherException).
Proof.
  intros youtube outcome. split; [|split; [|split; [|split]]].
  - intros Hraise. by apply search_videos_Raise in Hraise as [? _].
  - intros Hsearch. apply search_videos_Ok. by left.
  - intros response Hsearch Hitems Hdetails. eexists. split.
    + apply search_videos_Ok. right; right. exists response, ∅.
      split; [done|]. split; [done|]. split; [|done].
      unfold YouTube.fetch_durations. fold youtube. by rewrite Hdetails.
    + split.
      * rewrite <- list_fmap_compose. by apply list_fmap_ext.
      * apply Forall_fmap, Forall_true. intros item. simpl.
        by rewrite lookup_empty.
  - intros Hsearch. apply search_videos_Raise. split; [done | by left].
  - intros response Hsearch Hitems Hdetails. apply search_videos_Raise.
    split; [done|]. right. by exists response.
Qed.

Lemma search_videos_error_handling_witness :
  ∃ results,
    YouTube.search_videos (λ _, Samples.service_details_refused)
      Samples.parse_duration "key" "React tutorial" 2 "relevance" = Ok results
    ∧ YouTube.video_id <$> results = ["abc"; "xyz"]
    ∧ Forall (λ v, YouTube.duration v = "") results.
Proof.
  exact (proj1 (proj2 (proj2 (search_videos_error_handling
           (λ _, Samples.service_details_refused) Samples.parse_duration
           "key" "React tutorial" 2 "relevance")))
           (Some Samples.two_items) eq_refl ltac:(discriminate) eq_refl).
Defined.

(** C5 as stated fails: a failure of the search request that is not an
    [HttpError] reaches the caller, and so does one of the details
    request. *)
Lemma search_videos_propagates_other_errors :
  YouTube.search_videos (λ _, Samples.service_search_unreachable)
    Samples.parse_duration "key" "React tutorial" 2 "relevance"
    = Raise OtherException
  ∧ YouTube.search_videos (λ _, Samples.service_details_unreachable)
      Samples.parse_duration "key" "React tutorial" 2 "relevance"
    = Raise OtherException.
Proof. split; reflexivity. Qed.

(** ** Durations *)

Lemma format_02d_two_digits (n : Z) :
  (0 ≤ n < 60)%Z → Py.format_02d n = Spec.two_digits n.
Proof.
  intros Hn.
  assert (Hall : forallb (λ k, String.eqb (Py.format_02d k) (Spec.two_digits k))
                   (seqZ 0 60) = true) by (vm_compute; reflexivity).
  rewrite forallb_forall in Hall. apply String.eqb_eq, Hall.
  apply list_elem_of_In, elem_of_seqZ. lia.
Qed.

Section DurationFacts.

Variable parse_duration : string → option Z.

Lemma duration_str_parsed (iso : string) (total : Z) :
  iso ≠ "" → parse_duration iso = Some total →
  YouTube.duration_str parse_duration (Some iso) = Spec.minutes_seconds total.
Proof.
  intros Hiso Hparse. unfold YouTube.duration_str, Spec.minutes_seconds.
  destruct iso; [done|]. simpl. rewrite Hparse.
  rewrite format_02d_two_digits; [done|]. by apply Z.mod_pos_bound.
Qed.

Lemma duration_str_unparsed (iso : string) :
  parse_duration iso = None →
  YouTube.duration_str parse_duration (Some iso) = iso.
Proof.
  intros Hparse. unfold YouTube.duration_str.
  destruct iso; [done|]. simpl. by rewrite Hparse.
Qed.

Lemma minutes_seconds_has_form (total : Z) :
  Spec.minutes_seconds_form (Spec.minutes_seconds total).
Proof.
  exists (total / 60)%Z, (total mod 60)%Z.
  split; [by apply Z.mod_pos_bound | done].
Qed.

End DurationFacts.

Lemma has_colon_app (a b : string) : Spec.has_colon (a +:+ ":" +:+ b) = true.
Proof. induction a as [|c a IH]; [done|]. simpl. by rewrite IH, orb_true_r. Qed.

Lemma minutes_seconds_form_colon (s : string) :
  Spec.minutes_seconds_form s → Spec.has_colon s = true.
Proof. intros (m & sec & _ & ->). apply has_colon_app. Qed.

Lemma durations_table_lookup_None (details : list YouTube.DetailItem)
    (acc : gmap string string) (k : string) :
  foldl (λ durations vid,
           <[YouTube.detail_id vid := YouTube.detail_duration vid]> durations)
        acc details !! k = None
  ↔ acc !! k = None ∧ k ∉ YouTube.detail_id <$> details.
Proof.
  revert acc. induction details as [|d details IH]; intros acc; csimpl.
  - split; [intros ?; split; [done | apply not_elem_of_nil] | by intros [? _]].
  - rewrite IH, not_elem_of_cons, lookup_insert_None. intuition congruence.
Qed.

(** C4, as the code has it: the [duration] of a returned video is read
    off the [durations] table at its [video_id]. It is the empty text when
    the table has no entry or an empty one; the minutes, a colon and the
    seconds on two digits when the looked-up text parses; and the
    looked-up text itself when it does not parse. A video whose id the
    details response does not list, or any video when the details request
    is refused, has the empty duration; 125 seconds print as "2:05". *)
Theorem video_duration_field
    (build : string → YouTube.Service) (parse_duration : string → option Z)
    (key query : string) (max_results : Z) (order : string)
    (results : list YouTube.VideoResource) :
  YouTube.search_videos build parse_duration key query max_results order
    = Ok results →
  (∃ durations : gmap string string,
     (results = []
      ∨ YouTube.fetch_durations (build key) (YouTube.video_id <$> results)
        = Ok durations)
     ∧ ∀ v : YouTube.VideoResource,
         v ∈ results →
         match durations !! YouTube.video_id v with
         | None => YouTube.duration v = ""
         | Some iso =>
             if Py.str_truthy iso then
               match parse_duration iso with
               | Some total =>
                   YouTube.duration v = Spec.minutes_seconds total
                   ∧ Spec.minutes_seconds_form (YouTube.duration v)
               | None => YouTube.duration v = iso
               end
             else YouTube.duration v = ""
         end)
  ∧ (∀ v : YouTube.VideoResource,
       v ∈ results →
       match YouTube.videos_list (build key)
               (String.concat "," (YouTube.video_id <$> results)) with
       | Ok details =>
           YouTube.video_id v ∉ YouTube.detail_id <$> default [] details →
           YouTube.duration v = ""
       | Raise _ => YouTube.duration v = ""
       end)
  ∧ (∀ iso : string,
       iso ≠ "" → parse_duration iso = Some 125%Z →
       YouTube.duration_str parse_duration (Some iso) = "2:05")
  ∧ YouTube.duration_str parse_duration None = "".
Proof.
  intros Hres.
  assert (Hids : ∀ (durations : gmap string string)
                    (items : list YouTube.SearchItem),
    YouTube.video_id <$> (YouTube.video_of_item parse_duration durations <$> items)
    = YouTube.item_videoId <$> items).
  { intros durations items. rewrite <- list_fmap_compose.
    by apply list_fmap_ext. }
  assert (Hfield : ∀ (durations : gmap string string)
                      (item : YouTube.SearchItem),
    let v := YouTube.video_of_item parse_duration durations item in
    match durations !! YouTube.video_id v with
    | None => YouTube.duration v = ""
    | Some iso =>
        if Py.str_truthy iso then
          match parse_duration iso with
          | Some total =>
              YouTube.duration v = Spec.minutes_seconds total
              ∧ Spec.minutes_seconds_form (YouTube.duration v)
          | None => YouTube.duration v = iso
          end
        else YouTube.duration v = ""
    end).
  { intros durations item. simpl.
    destruct (durations !! YouTube.item_videoId item) as [iso|] eqn:Hiso;
      [|done].
    destruct iso as [|c iso]; [done|]. cbn [Py.str_truthy].
    destruct (parse_duration (String c iso)) as [total|] eqn:Hparse.
    - rewrite (duration_str_parsed _ _ total) by done.
      split; [done | apply minutes_seconds_has_form].
    - by apply duration_str_unparsed. }
  apply search_videos_Ok in Hres
    as [[_ ->]|[(? & _ & _ & ->)|(response & durations & _ & _ & Hd & ->)]].
  - split; [exists ∅; split; [by left | by intros v ?%elem_of_nil]|].
    split; [by intros v ?%elem_of_nil|].
    split; [|done]. intros iso Hiso Hparse.
    by rewrite (duration_str_parsed _ _ 125%Z).
  - split; [exists ∅; split; [by left | by intros v ?%elem_of_nil]|].
    split; [by intros v ?%elem_of_nil|].
    split; [|done]. intros iso Hiso Hparse.
    by rewrite (duration_str_parsed _ _ 125%Z).
  - split; [|split; [|split; [|done]]].
    + exists durations. split; [right; by rewrite Hids|].
      intros v (item & -> & _)%list_elem_of_fmap. apply Hfield.
    + intros v (item & -> & _)%list_elem_of_fmap. rewrite Hids.
      unfold YouTube.fetch_durations in Hd.
      destruct (YouTube.videos_list _ _) as [details|[]]; simplify_eq.
      * intros Hmissing. simpl.
        assert (foldl (λ durations vid,
                  <[YouTube.detail_id vid := YouTube.detail_duration vid]>
                    durations) ∅ (default [] details)
                !! YouTube.item_videoId item = None) as ->; [|done].
        apply durations_table_lookup_None. by rewrite lookup_empty.
      * simpl. by rewrite lookup_empty.
    + intros iso Hiso Hparse. by rewrite (duration_str_parsed _ _ 125%Z).
Qed.

Lemma video_duration_field_witness :
  YouTube.duration_str Samples.parse_duration (Some "PT2M5S") = "2:05".
Proof.
  exact (proj1 (proj2 (proj2 (video_duration_field
           (λ _, Samples.service Samples.details_iso) Samples.parse_duration
           "key" "React tutorial" 2 "relevance" Samples.found_videos eq_refl)))
           "PT2M5S" ltac:(discriminate) eq_refl).
Defined.

(** C4 as stated fails: a looked-up duration that does not parse is
    returned as it is, which is neither empty nor of the form [M:SS]. *)
Lemma unparsable_duration_returned_raw :
  ∃ (results : list YouTube.VideoResource) (v : YouTube.VideoResource),
    YouTube.search_videos (λ _, Samples.service Samples.details_unparsable)
      Samples.parse_duration "key" "React tutorial" 2 "relevance" = Ok results
    ∧ v ∈ results
    ∧ YouTube.duration v = "unknown"
    ∧ YouTube.duration v ≠ ""
    ∧ ¬ Spec.minutes_seconds_form (YouTube.duration v).
Proof.
  eexists _, _. split; [reflexivity|].
  split; [left|]. split; [reflexivity|]. split; [discriminate|].
  intros Hform%minutes_seconds_form_colon. discriminate Hform.
Qed.

(** ** The article adapter *)

(** C8, as the code has it: for [max_articles >= 0] the adapter returns
    the first [max_articles] entries of the feed (all of them when there
    are fewer), converted one by one in the order of the feed. The title,
    the url (the entry's [link]) and the summary of an article are the
    entry's values, the empty text when the entry lacks them. The
    published date is the entry's [published] value when it is present and
    not empty, otherwise the entry's [updated] value, and the empty text
    when both are missing. *)
Theorem get_articles_for_tag_result
    (feedparser_parse : string → list (gmap string string))
    (tag : string) (max_articles : Z) :
  (0 ≤ max_articles)%Z →
  let entries := feedparser_parse ("https://medium.com/feed/tag/" +:+ tag) in
  let articles :=
    Medium.get_articles_for_tag feedparser_parse tag max_articles in
  (length articles ≤ Z.to_nat max_articles)%nat
  ∧ length articles = (Z.to_nat max_articles `min` length entries)%nat
  ∧ (∀ (i : nat) (a : Medium.ArticleResource),
       articles !! i = Some a →
       ∃ entry : gmap string string,
         entries !! i = Some entry
         ∧ Medium.title a = default "" (entry !! "title")
         ∧ Medium.url a = default "" (entry !! "link")
         ∧ Medium.summary a = default "" (entry !! "summary")
         ∧ Medium.published a =
           match entry !! "published" with
           | Some (String c p) => String c p
           | _ => default "" (entry !! "updated")
           end
         ∧ (entry !! "title" = None → Medium.title a = "")
         ∧ (entry !! "link" = None → Medium.url a = "")
         ∧ (entry !! "summary" = None → Medium.summary a = "")
         ∧ (entry !! "published" = None → entry !! "updated" = None →
            Medium.published a = "")).
Proof.
  intros Hmax entries articles.
  assert (Harticles :
    articles = Medium.article_of_entry <$> take (Z.to_nat max_articles) entries).
  { unfold articles, Medium.get_articles_for_tag. fold entries.
    by rewrite slice_to_take. }
  rewrite Harticles, length_fmap, length_take.
  split; [lia|]. split; [done|].
  intros i a Ha. rewrite list_lookup_fmap in Ha.
  destruct (take _ entries !! i) as [entry|] eqn:Hentry; [|done].
  injection Ha as <-. apply lookup_take_Some in Hentry as [Hentry _].
  exists entry. split; [done|]. simpl. unfold Py.dict_get, Py.str_or.
  repeat split; try (by intros ->).
  - by destruct (entry !! "published") as [[|c p]|].
  - by intros -> ->.
Qed.

Lemma get_articles_for_tag_result_witness :
  length (Medium.get_articles_for_tag Samples.feed "react" 2) = 2%nat.
Proof.
  exact (proj1 (proj2 (get_articles_for_tag_result Samples.feed "react" 2
                         ltac:(lia)))).
Defined.

(** C8 as stated fails for the published date: an entry without
    [published] that has an [updated] date gives an article whose
    published date is that date, not the empty text. *)
Lemma published_falls_back_to_updated :
  ∃ (entry : gmap string string) (a : Medium.ArticleResource),
    Samples.feed "https://medium.com/feed/tag/react" !! 1%nat = Some entry
    ∧ Medium.get_articles_for_tag Samples.feed "react" 3 !! 1%nat = Some a
    ∧ entry !! "published" = None
    ∧ Medium.published a = "Tue"
    ∧ Medium.published a ≠ "".
Proof.
  eexists _, _. split; [reflexivity|]. split; [reflexivity|].
  split; [by vm_compute|]. split; [by vm_compute | by vm_compute].
Qed.

(** ** The tag slug *)

Lemma rstrip_snoc (s : list N) (c : N) :
  Py.rstrip (s ++ [c]) = if Py.isspace c then Py.rstrip s else s ++ [c].
Proof.
  induction s as [|d s IH]; simpl.
  - by destruct (Py.isspace c).
  - rewrite IH. destruct (Py.isspace c); [done|].
    by destruct s, (Py.isspace d).
Qed.

(** Stripping the right end is stripping the left end of the mirror
    image. *)
Lemma rstrip_mirror (s : list N) :
  Py.rstrip s = reverse (Py.lstrip (reverse s)).
Proof.
  induction s as [|c s IH] using rev_ind; [done|].
  rewrite rstrip_snoc, reverse_snoc. simpl.
  destruct (Py.isspace c); [done|].
  by rewrite reverse_cons, reverse_involutive.
Qed.

Lemma strip_trim (s : list N) : Py.strip s = Spec.trim s.
Proof. unfold Py.strip, Spec.trim. apply rstrip_mirror. Qed.

Lemma fields_nonempty (s : list N) : Spec.fields s ≠ [].
Proof.
  induction s as [|c s IH]; [done|]. simpl.
  destruct (Py.isspace c).
  - by destruct (Spec.starts_space s).
  - by destruct (Spec.fields s).
Qed.

Lemma re_sub_after_run (repl s : list N) :
  Spec.starts_space s = false →
  Py.re_sub_spaces_from true repl s = Py.re_sub_spaces_from false repl s.
Proof. destruct s as [|c s]; [done|]. simpl. by intros ->. Qed.

Lemma re_sub_at_run (repl s : list N) :
  Spec.starts_space s = true →
  Py.re_sub_spaces_from false repl s
  = repl ++ Py.re_sub_spaces_from true repl s.
Proof. destruct s as [|c s]; [done|]. simpl. by intros ->. Qed.

(** Substituting the runs of white space is splitting at the runs and
    joining the pieces with the replacement. *)
Lemma re_sub_join (repl s : list N) :
  Py.re_sub_spaces repl s = Spec.join repl (Spec.fields s).
Proof.
  unfold Py.re_sub_spaces. induction s as [|c s IH]; [done|].
  pose proof (fields_nonempty s) as Hne.
  cbn [Py.re_sub_spaces_from Spec.fields].
  destruct (Py.isspace c).
  - destruct (Spec.starts_space s) eqn:Hs.
    + by rewrite <- IH, re_sub_at_run.
    + rewrite re_sub_after_run, IH by done.
      by destruct (Spec.fields s).
  - rewrite IH. destruct (Spec.fields s) as [|f [|f' fs]]; done.
Qed.

Lemma tag_slug_slug (str_lower : list N → list N) (skill : string) :
  LearningPath.tag_slug str_lower skill = Spec.slug str_lower skill.
Proof.
  unfold LearningPath.tag_slug, LearningPath.tag_slug_text, Spec.slug.
  by rewrite re_sub_join, strip_trim.
Qed.

(** C7: the tag slug that [generate_learning_path] hands to the article
    adapter is the skill trimmed of its leading and trailing white space,
    lower-cased, and with each run of white space that is left replaced by
    one hyphen; " Machine  Learning " gives "machine-learning" (given that
    [str.lower] turns "Machine  Learning" into "machine  learning"); and
    the feed address of that slug is the only one the plan depends on. *)
Theorem tag_slug_correct (str_lower : list N → list N) (skill : string) :
  LearningPath.tag_slug str_lower skill = Spec.slug str_lower skill
  ∧ (str_lower (Py.decode "Machine  Learning")
       = Py.decode "machine  learning" →
     LearningPath.tag_slug str_lower " Machine  Learning "
       = "machine-learning")
  ∧ (∀ (build : string → YouTube.Service)
       (parse_duration : string → option Z)
       (feed feed' : string → list (gmap string string))
       (key : string) (weeks videos_per_week articles_per_week : Z)
       (order : string),
       feed ("https://medium.com/feed/tag/" +:+ Spec.slug str_lower skill)
       = feed' ("https://medium.com/feed/tag/" +:+ Spec.slug str_lower skill) →
       LearningPath.generate_learning_path build parse_duration feed
         str_lower skill key weeks videos_per_week articles_per_week order
       = LearningPath.generate_learning_path build parse_duration feed'
           str_lower skill key weeks videos_per_week articles_per_week order).
Proof.
  split; [apply tag_slug_slug|]. split.
  - intros Hlower.
    unfold LearningPath.tag_slug, LearningPath.tag_slug_text.
    change (Py.strip (Py.decode " Machine  Learning "))
      with (Py.decode "Machine  Learning").
    by rewrite Hlower.
  - intros build parse_duration feed feed' key weeks vpw apw order Hfeed.
    unfold LearningPath.generate_learning_path, Medium.get_articles_for_tag.
    by rewrite tag_slug_slug, Hfeed.
Qed.

Lemma tag_slug_correct_witness :
  LearningPath.tag_slug Samples.str_lower " Machine  Learning "
  = "machine-learning".
Proof.
  exact (proj1 (proj2 (tag_slug_correct Samples.str_lower "React")) eq_refl).
Defined.

(** * Further properties of the plan *)

Section WeekSlices.
Context {A : Type}.
Implicit Types l s : list A.

(** Consecutive windows of the same width, put end to end. *)
Lemma join_windows l (width first count : nat) :
  mjoin ((λ i : nat, take width (drop (i * width) l)) <$> seq first count)
  = take (count * width) (drop (first * width) l).
Proof.
  revert first. induction count as [|count IH]; intros first; [done|].
  csimpl. rewrite IH.
  replace (S first * width)%nat with (first * width + width)%nat by lia.
  rewrite <- drop_drop. apply take_take_drop.
Qed.

Lemma week_slice_window l (per_week : Z) (i : nat) :
  (0 ≤ per_week)%Z →
  Py.slice l (Z.of_nat i * per_week) ((Z.of_nat i + 1) * per_week)
  = take (Z.to_nat per_week) (drop (i * Z.to_nat per_week) l).
Proof.
  intros Hper. rewrite slice_window by nia. f_equal; [f_equal; lia|].
  f_equal. nia.
Qed.

Lemma cyclic_prefix_nil (n : nat) : Spec.cyclic_prefix (@nil A) n = [].
Proof. done. Qed.

Lemma pad_cyclic_all l (total : Z) :
  (0 ≤ total)%Z →
  LearningPath.pad total l = Spec.cyclic_prefix l (Z.to_nat total).
Proof.
  intros Htotal. destruct l as [|x l]; [|by apply pad_cyclic].
  unfold LearningPath.pad. rewrite extend_until_nil.
  by rewrite slice_to_take, take_nil.
Qed.

Lemma cyclic_prefix_take s (n : nat) :
  (n ≤ length s)%nat → Spec.cyclic_prefix s n = take n s.
Proof.
  intros Hn. destruct s as [|d s']; [by rewrite take_nil|].
  apply list_eq. intros i. destruct (decide (i < n)%nat) as [Hi|Hi].
  - rewrite lookup_cyclic_prefix, lookup_take_lt by done.
    by rewrite Nat.mod_small by lia.
  - rewrite lookup_take_ge by lia. apply lookup_ge_None_2.
    simpl. rewrite length_fmap, length_seq. lia.
Qed.

Lemma extend_until_elem_of total l x :
  x ∈ LearningPath.extend_until total l → x ∈ l.
Proof.
  apply (extend_until_ind total (λ l r : list A, x ∈ r → x ∈ l)); [done|].
  intros l0 r _ IH Hx. apply IH, elem_of_app in Hx. tauto.
Qed.

Lemma slice_elem_of l (a b : Z) x : x ∈ Py.slice l a b → x ∈ l.
Proof.
  unfold Py.slice. intros Hx.
  by apply subseteq_take, subseteq_drop in Hx.
Qed.

Lemma pad_elem_of total l x : x ∈ LearningPath.pad total l → x ∈ l.
Proof.
  unfold LearningPath.pad, Py.slice_to.
  intros Hx%slice_elem_of. by apply extend_until_elem_of in Hx.
Qed.

Lemma all_equal_replicate l x :
  (∀ y, y ∈ l → y = x) → l = replicate (length l) x.
Proof.
  induction l as [|y l IH]; intros Hall; [done|]. simpl.
  rewrite (Hall y) by left. f_equal. apply IH. intros z Hz.
  apply Hall. by right.
Qed.

End WeekSlices.

Lemma assemble_videos skill weeks vpw apw videos articles :
  (0 ≤ vpw)%Z →
  LearningPath.videos
    <$> LearningPath.assemble skill weeks vpw apw videos articles
  = (λ i : nat, take (Z.to_nat vpw)
       (drop (i * Z.to_nat vpw) (LearningPath.pad (weeks * vpw) videos)))
    <$> seq 0 (Z.to_nat weeks).
Proof.
  intros Hvpw. unfold LearningPath.assemble, Py.range.
  rewrite !truthy_normalise, <- list_fmap_compose.
  apply list_fmap_ext. intros _ i _. simpl. by apply week_slice_window.
Qed.

Lemma assemble_articles skill weeks vpw apw videos articles :
  (0 ≤ apw)%Z →
  LearningPath.articles
    <$> LearningPath.assemble skill weeks vpw apw videos articles
  = (λ i : nat, take (Z.to_nat apw)
       (drop (i * Z.to_nat apw) (LearningPath.pad (weeks * apw) articles)))
    <$> seq 0 (Z.to_nat weeks).
Proof.
  intros Hapw. unfold LearningPath.assemble, Py.range.
  rewrite !truthy_normalise, <- list_fmap_compose.
  apply list_fmap_ext. intros _ i _. simpl. by apply week_slice_window.
Qed.

Lemma join_week_slices {A : Type} (l : list A) (weeks per_week : Z) :
  (0 ≤ weeks)%Z → (0 ≤ per_week)%Z →
  mjoin ((λ i : nat, take (Z.to_nat per_week)
            (drop (i * Z.to_nat per_week)
               (LearningPath.pad (weeks * per_week) l)))
         <$> seq 0 (Z.to_nat weeks))
  = Spec.cyclic_prefix l (Z.to_nat (weeks * per_week)).
Proof.
  intros Hweeks Hper. rewrite join_windows. simpl. rewrite drop_0.
  rewrite pad_cyclic_all by nia. apply take_ge.
  destruct l as [|d l]; [simpl; lia|].
  simpl. rewrite length_fmap, length_seq. nia.
Qed.

(** X1: the weeks of the plan are numbered 1, 2, ... in order, as many as
    [weeks]; a [weeks] of zero or less gives the empty plan. *)
Theorem plan_week_numbers
    (build : string → YouTube.Service) (parse_duration : string → option Z)
    (feedparser_parse : string → list (gmap string string))
    (str_lower : list N → list N)
    (skill key : string) (weeks videos_per_week articles_per_week : Z)
    (order : string) (plan : list LearningPath.WeekPlan) :
  LearningPath.generate_learning_path build parse_duration feedparser_parse
    str_lower skill key weeks videos_per_week articles_per_week order = Ok plan →
  LearningPath.week <$> plan = seqZ 1 weeks
  ∧ ((weeks ≤ 0)%Z → plan = []).
Proof.
  intros Hplan. apply generate_learning_path_Ok in Hplan as (videos & _ & ->).
  unfold LearningPath.assemble, Py.range. split.
  - rewrite <- list_fmap_compose. unfold seqZ. by apply list_fmap_ext.
  - intros Hweeks. by replace (Z.to_nat weeks) with 0%nat by lia.
Qed.

Lemma plan_week_numbers_witness :
  ∃ plan,
    LearningPath.generate_learning_path
      (λ _, Samples.service Samples.details_iso) Samples.parse_duration
      Samples.feed Samples.str_lower "React" "key" 3 1 1 "relevance" = Ok plan
    ∧ LearningPath.week <$> plan = [1; 2; 3]%Z.
Proof.
  eexists. split; [reflexivity|].
  exact (proj1 (plan_week_numbers
    (λ _, Samples.service Samples.details_iso) Samples.parse_duration
    Samples.feed Samples.str_lower "React" "key" 3 1 1 "relevance" _ eq_refl)).
Defined.

(** X2: the weekly lists are consecutive pieces of the padded results:
    put end to end in week order, the video lists of the plan are the
    first [weeks * videos_per_week] elements of the cyclic repetition of
    what the video adapter returned (nothing when it returned nothing),
    and likewise the article lists. *)
Theorem plan_partitions_padded_results
    (build : string → YouTube.Service) (parse_duration : string → option Z)
    (feedparser_parse : string → list (gmap string string))
    (str_lower : list N → list N)
    (skill key : string) (weeks videos_per_week articles_per_week : Z)
    (order : string) (plan : list LearningPath.WeekPlan) :
  (0 ≤ weeks)%Z → (0 ≤ videos_per_week)%Z → (0 ≤ articles_per_week)%Z →
  LearningPath.generate_learning_path build parse_duration feedparser_parse
    str_lower skill key weeks videos_per_week articles_per_week order = Ok plan →
  ∃ raw_videos,
    YouTube.search_videos build parse_duration key (skill +:+ " tutorial")
      (weeks * videos_per_week)%Z order = Ok raw_videos
    ∧ mjoin (LearningPath.videos <$> plan)
      = Spec.cyclic_prefix raw_videos (Z.to_nat (weeks * videos_per_week))
    ∧ mjoin (LearningPath.articles <$> plan)
      = Spec.cyclic_prefix
          (Medium.get_articles_for_tag feedparser_parse
             (LearningPath.tag_slug str_lower skill) (weeks * articles_per_week)%Z)
          (Z.to_nat (weeks * articles_per_week)).
Proof.
  intros Hweeks Hvpw Hapw Hplan.
  apply generate_learning_path_Ok in Hplan as (videos & Hsearch & ->).
  exists videos. split; [done|].
  rewrite assemble_videos, assemble_articles by done.
  split; by apply join_week_slices.
Qed.

Lemma plan_partitions_padded_results_witness :
  ∃ plan,
    LearningPath.generate_learning_path
      (λ _, Samples.service Samples.details_iso) Samples.parse_duration
      Samples.feed Samples.str_lower "React" "key" 3 1 1 "relevance" = Ok plan
    ∧ YouTube.video_id <$> mjoin (LearningPath.videos <$> plan)
      = ["abc"; "xyz"; "abc"].
Proof.
  eexists. split; [reflexivity|].
  destruct (plan_partitions_padded_results
    (λ _, Samples.service Samples.details_iso) Samples.parse_duration
    Samples.feed Samples.str_lower "React" "key" 3 1 1 "relevance" _
    ltac:(lia) ltac:(lia) ltac:(lia) eq_refl) as (raw & Hraw & -> & _).
  injection Hraw as <-. reflexivity.
Defined.

(** X3: every week of the plan holds exactly [videos_per_week] videos when
    the video adapter returned at least one, and none when it returned
    none. *)
Theorem plan_week_sizes
    (build : string → YouTube.Service) (parse_duration : string → option Z)
    (feedparser_parse : string → list (gmap string string))
    (str_lower : list N → list N)
    (skill key : string) (weeks videos_per_week articles_per_week : Z)
    (order : string) (raw_videos : list YouTube.VideoResource)
    (plan : list LearningPath.WeekPlan) :
  (0 ≤ videos_per_week)%Z →
  YouTube.search_videos build parse_duration key (skill +:+ " tutorial")
    (weeks * videos_per_week)%Z order = Ok raw_videos →
  LearningPath.generate_learning_path build parse_duration feedparser_parse
    str_lower skill key weeks videos_per_week articles_per_week order = Ok plan →
  ∀ w : LearningPath.WeekPlan,
    w ∈ plan →
    length (LearningPath.videos w)
    = if Py.truthy raw_videos then Z.to_nat videos_per_week else 0%nat.
Proof.
  intros Hvpw Hsearch Hplan w Hw.
  apply generate_learning_path_Ok in Hplan as (videos & Hsearch' & ->).
  assert (videos = raw_videos) as -> by congruence.
  apply list_elem_of_lookup in Hw as [i Hw].
  apply assemble_lookup in Hw as [Hi ->]. simpl.
  assert (0 ≤ weeks)%Z by lia.
  pose proof (length_pad raw_videos (weeks * videos_per_week) ltac:(nia))
    as Hlen.
  destruct (Py.truthy raw_videos).
  - apply length_week_slice with (weeks := weeks); [done | lia | done].
  - apply nil_length_inv in Hlen. rewrite Hlen. by rewrite slice_nil.
Qed.

Lemma plan_week_sizes_witness :
  Forall (λ w, length (LearningPath.videos w) = 2%nat)
    (LearningPath.assemble "React" 3 2 1 Samples.found_videos
       (Medium.get_articles_for_tag Samples.feed
          (LearningPath.tag_slug Samples.str_lower "React") 3)).
Proof.
  apply Forall_forall.
  exact (plan_week_sizes
    (λ _, Samples.service Samples.details_iso) Samples.parse_duration
    Samples.feed Samples.str_lower "React" "key" 3 2 1 "relevance" Samples.found_videos _
    ltac:(lia) eq_refl eq_refl).
Defined.

(** X4: the plan invents no resource: every video of every week is one of
    the videos the adapter returned and every article one of the articles
    the adapter returned, whatever the counts are. *)
Theorem plan_resources_from_adapters
    (build : string → YouTube.Service) (parse_duration : string → option Z)
    (feedparser_parse : string → list (gmap string string))
    (str_lower : list N → list N)
    (skill key : string) (weeks videos_per_week articles_per_week : Z)
    (order : string) (raw_videos : list YouTube.VideoResource)
    (plan : list LearningPath.WeekPlan) :
  YouTube.search_videos build parse_duration key (skill +:+ " tutorial")
    (weeks * videos_per_week)%Z order = Ok raw_videos →
  LearningPath.generate_learning_path build parse_duration feedparser_parse
    str_lower skill key weeks videos_per_week articles_per_week order = Ok plan →
  ∀ w : LearningPath.WeekPlan,
    w ∈ plan →
    (∀ v, v ∈ LearningPath.videos w → v ∈ raw_videos)
    ∧ (∀ a, a ∈ LearningPath.articles w →
         a ∈ Medium.get_articles_for_tag feedparser_parse
               (LearningPath.tag_slug str_lower skill) (weeks * articles_per_week)%Z).
Proof.
  intros Hsearch Hplan w Hw.
  apply generate_learning_path_Ok in Hplan as (videos & Hsearch' & ->).
  assert (videos = raw_videos) as -> by congruence.
  apply list_elem_of_lookup in Hw as [i Hw].
  apply assemble_lookup in Hw as [_ ->]. simpl. split.
  - intros v Hv%slice_elem_of. by apply pad_elem_of in Hv.
  - intros a Ha%slice_elem_of. by apply pad_elem_of in Ha.
Qed.

Lemma plan_resources_from_adapters_witness :
  Forall (λ w, ∀ v, v ∈ LearningPath.videos w → v ∈ Samples.found_videos)
    (LearningPath.assemble "React" 3 2 1 Samples.found_videos
       (Medium.get_articles_for_tag Samples.feed
          (LearningPath.tag_slug Samples.str_lower "React") 3)).
Proof.
  apply Forall_forall. intros w Hw.
  exact (proj1 (plan_resources_from_adapters
    (λ _, Samples.service Samples.details_iso) Samples.parse_duration
    Samples.feed Samples.str_lower "React" "key" 3 2 1 "relevance" Samples.found_videos _
    eq_refl eq_refl w Hw)).
Defined.

(** X5: when the video adapter returned at least as many videos as the
    plan needs, nothing is repeated: the weeks hold, in order, the first
    [weeks * videos_per_week] videos returned. *)
Theorem plan_uses_first_results_when_enough
    (build : string → YouTube.Service) (parse_duration : string → option Z)
    (feedparser_parse : string → list (gmap string string))
    (str_lower : list N → list N)
    (skill key : string) (weeks videos_per_week articles_per_week : Z)
    (order : string) (raw_videos : list YouTube.VideoResource)
    (plan : list LearningPath.WeekPlan) :
  (0 ≤ weeks)%Z → (0 ≤ videos_per_week)%Z →
  (weeks * videos_per_week ≤ Z.of_nat (length raw_videos))%Z →
  YouTube.search_videos build parse_duration key (skill +:+ " tutorial")
    (weeks * videos_per_week)%Z order = Ok raw_videos →
  LearningPath.generate_learning_path build parse_duration feedparser_parse
    str_lower skill key weeks videos_per_week articles_per_week order = Ok plan →
  mjoin (LearningPath.videos <$> plan)
  = take (Z.to_nat (weeks * videos_per_week)) raw_videos.
Proof.
  intros Hweeks Hvpw Henough Hsearch Hplan.
  apply generate_learning_path_Ok in Hplan as (videos & Hsearch' & ->).
  assert (videos = raw_videos) as -> by congruence.
  rewrite assemble_videos, join_week_slices by done.
  apply cyclic_prefix_take. lia.
Qed.

Lemma plan_uses_first_results_when_enough_witness :
  mjoin (LearningPath.videos
           <$> LearningPath.assemble "React" 1 2 1 Samples.found_videos
                 (Medium.get_articles_for_tag Samples.feed
                    (LearningPath.tag_slug Samples.str_lower "React") 1))
  = Samples.found_videos.
Proof.
  exact (plan_uses_first_results_when_enough
    (λ _, Samples.service Samples.details_iso) Samples.parse_duration
    Samples.feed Samples.str_lower "React" "key" 1 2 1 "relevance" Samples.found_videos _
    ltac:(lia) ltac:(lia) ltac:(simpl; lia) eq_refl eq_refl).
Defined.

Lemma week_videos_of_single (skill : string) (weeks vpw apw : Z)
    (v : YouTube.VideoResource) (articles : list Medium.ArticleResource)
    (w : LearningPath.WeekPlan) :
  (0 ≤ vpw)%Z →
  w ∈ LearningPath.assemble skill weeks vpw apw [v] articles →
  LearningPath.videos w = replicate (Z.to_nat vpw) v.
Proof.
  intros Hvpw Hw. apply list_elem_of_lookup in Hw as [i Hw].
  apply assemble_lookup in Hw as [Hi ->]. simpl.
  pose proof (length_pad [v] (weeks * vpw) ltac:(nia)) as Hlen.
  rewrite <- (length_week_slice (LearningPath.pad (weeks * vpw) [v])
                weeks vpw i) at 1 by (done || lia).
  apply all_equal_replicate.
  intros y Hy%slice_elem_of. apply pad_elem_of in Hy.
  by apply list_elem_of_singleton in Hy.
Qed.

(** X6: when the video adapter returned a single video, every week of the
    plan shows that video, [videos_per_week] times. *)
Theorem single_video_fills_every_week
    (build : string → YouTube.Service) (parse_duration : string → option Z)
    (feedparser_parse : string → list (gmap string string))
    (str_lower : list N → list N)
    (skill key : string) (weeks videos_per_week articles_per_week : Z)
    (order : string) (v : YouTube.VideoResource)
    (plan : list LearningPath.WeekPlan) :
  (0 ≤ videos_per_week)%Z →
  YouTube.search_videos build parse_duration key (skill +:+ " tutorial")
    (weeks * videos_per_week)%Z order = Ok [v] →
  LearningPath.generate_learning_path build parse_duration feedparser_parse
    str_lower skill key weeks videos_per_week articles_per_week order = Ok plan →
  ∀ w : LearningPath.WeekPlan,
    w ∈ plan →
    LearningPath.videos w = replicate (Z.to_nat videos_per_week) v.
Proof.
  intros Hvpw Hsearch Hplan w Hw.
  apply generate_learning_path_Ok in Hplan as (videos & Hsearch' & ->).
  assert (videos = [v]) as -> by congruence.
  by eapply week_videos_of_single.
Qed.

Lemma single_video_fills_every_week_witness :
  Forall (λ w, LearningPath.videos w = [Samples.lone_video])
    (LearningPath.assemble "React" 2 1 1 [Samples.lone_video] []).
Proof.
  apply Forall_forall.
  exact (single_video_fills_every_week
    (λ _, Samples.service_one_video) Samples.parse_duration
    Samples.empty_feed Samples.str_lower "React" "key" 2 1 1 "relevance" Samples.lone_video _
    ltac:(lia) eq_refl eq_refl).
Defined.

(** X7: a search request refused by the API does not stop the plan: the
    plan is returned with all its weeks, each without videos; and
    [generate_learning_path] raises exactly when [search_videos] does,
    with the same exception. *)
Theorem plan_without_videos_on_api_error
    (build : string → YouTube.Service) (parse_duration : string → option Z)
    (feedparser_parse : string → list (gmap string string))
    (str_lower : list N → list N)
    (skill key : string) (weeks videos_per_week articles_per_week : Z)
    (order : string) :
  let outcome :=
    LearningPath.generate_learning_path build parse_duration feedparser_parse
      str_lower skill key weeks videos_per_week articles_per_week order in
  (YouTube.search_list (build key) (skill +:+ " tutorial")
     (weeks * videos_per_week)%Z order = Raise HttpError →
   ∃ plan,
     outcome = Ok plan
     ∧ length plan = Z.to_nat weeks
     ∧ Forall (λ w, LearningPath.videos w = []) plan)
  ∧ (∀ e : exn,
       outcome = Raise e ↔
       YouTube.search_videos build parse_duration key (skill +:+ " tutorial")
         (weeks * videos_per_week)%Z order = Raise e).
Proof.
  intros outcome. split.
  - intros Hsearch. eexists. split.
    + apply generate_learning_path_Ok. eexists. split; [|done].
      apply search_videos_Ok. by left.
    + split; [apply assemble_length|].
      apply Forall_forall. intros w Hw.
      apply list_elem_of_lookup in Hw as [i Hw].
      apply assemble_lookup in Hw as [_ ->]. simpl.
      unfold LearningPath.pad. rewrite extend_until_nil.
      unfold Py.slice_to. by rewrite !slice_nil.
  - intros e. unfold outcome, LearningPath.generate_learning_path.
    destruct (YouTube.search_videos _ _ _ _ _ _); simpl.
    + split; intros [=].
    + split; by intros [= ->].
Qed.

Lemma plan_without_videos_on_api_error_witness :
  ∃ plan,
    LearningPath.generate_learning_path
      (λ _, Samples.service_search_refused) Samples.parse_duration
      Samples.feed Samples.str_lower "React" "key" 2 1 1 "relevance" = Ok plan
    ∧ length plan = 2%nat
    ∧ Forall (λ w, LearningPath.videos w = []) plan.
Proof.
  exact (proj1 (plan_without_videos_on_api_error
    (λ _, Samples.service_search_refused) Samples.parse_duration
    Samples.feed Samples.str_lower "React" "key" 2 1 1 "relevance") eq_refl).
Defined.

Section DoublingFacts.
Context {A : Type}.
Implicit Types l s : list A.

Lemma copies_of_double s (k : nat) :
  mjoin (replicate k (s ++ s)) = mjoin (replicate (2 * k) s).
Proof.
  induction k as [|k IH]; [done|].
  replace (2 * S k)%nat with (S (S (2 * k))) by lia. simpl.
  rewrite IH. simpl. by rewrite <- app_assoc.
Qed.

End DoublingFacts.

(** X8: the padding loop keeps the list a whole number of copies of the
    list it started from, doubling it at each iteration: it ends with
    [2^k] copies for some [k], and unless it leaves the list untouched the
    final length is at least the required total and less than twice
    it. *)
Theorem padding_loop_doubles (A : Type) (s : list A) (total : Z) :
  (∃ k : nat,
     LearningPath.extend_until total s = mjoin (replicate (2 ^ k) s))
  ∧ (LearningPath.extend_until total s = s
     ∨ (total ≤ Z.of_nat (length (LearningPath.extend_until total s))
        < 2 * total)%Z).
Proof.
  split.
  - apply (extend_until_ind total
      (λ l r : list A, ∃ k : nat, r = mjoin (replicate (2 ^ k) l))).
    + intros l _. exists 0%nat. simpl. by rewrite app_nil_r.
    + intros l r _ [k ->]. exists (S k).
      by rewrite copies_of_double.
  - pose proof (extend_until_final total s) as Hfinal. revert Hfinal.
    apply (extend_until_ind total
      (λ l r : list A,
         LearningPath.loop_guard total r = false →
         r = l ∨ (total ≤ Z.of_nat (length r) < 2 * total)%Z)).
    + intros l _ _. by left.
    + intros l r Hguard IH Hfinal. right.
      apply loop_guard_true in Hguard as [Hlt Hne].
      destruct (IH Hfinal) as [->|Hr]; [|done].
      apply loop_guard_false in Hfinal as [Hge|Hnil].
      * rewrite length_app in Hge |- *. lia.
      * by destruct l.
Qed.

(** * Further properties of the adapters *)

(** X9: [search_videos] returns one video for each item of the search
    response, in the order of the response and however many the API sent
    (the result is not cut to [max_results]); each video carries the id of
    its item, and its title, channel and date are those of the item's
    snippet, the empty text when the snippet or the key is missing. *)
Theorem search_videos_mirrors_items
    (build : string → YouTube.Service) (parse_duration : string → option Z)
    (key query : string) (max_results : Z) (order : string)
    (response : option (list YouTube.SearchItem))
    (results : list YouTube.VideoResource) :
  YouTube.search_list (build key) query max_results order = Ok response →
  YouTube.search_videos build parse_duration key query max_results order
    = Ok results →
  length results = length (default [] response)
  ∧ ∀ (i : nat) (v : YouTube.VideoResource),
      results !! i = Some v →
      ∃ item : YouTube.SearchItem,
        default [] response !! i = Some item
        ∧ YouTube.video_id v = YouTube.item_videoId item
        ∧ YouTube.title v
          = default "" (YouTube.item_snippet item ≫= (.!! "title"))
        ∧ YouTube.channel v
          = default "" (YouTube.item_snippet item ≫= (.!! "channelTitle"))
        ∧ YouTube.published_at v
          = default "" (YouTube.item_snippet item ≫= (.!! "publishedAt")).
Proof.
  intros Hsearch Hres.
  apply search_videos_Ok in Hres
    as [[? _]|[(r & Hr & Hnil & ->)|(r & durations & Hr & _ & _ & ->)]];
    [congruence | |]; assert (r = response) as -> by congruence.
  - rewrite Hnil. split; [done|]. by intros i v ?.
  - rewrite length_fmap. split; [done|]. intros i v Hv.
    rewrite list_lookup_fmap in Hv.
    destruct (default [] response !! i) as [item|]; [|done].
    injection Hv as <-. exists item. split; [done|]. simpl.
    unfold Py.dict_get. by destruct (YouTube.item_snippet item).
Qed.

Lemma search_videos_mirrors_items_witness :
  length Samples.found_videos = length Samples.two_items.
Proof.
  exact (proj1 (search_videos_mirrors_items
    (λ _, Samples.service Samples.details_iso) Samples.parse_duration
    "key" "React tutorial" 1 "relevance" (Some Samples.two_items)
    Samples.found_videos eq_refl eq_refl)).
Defined.

Lemma durations_table_lookup (details : list YouTube.DetailItem) (k : string) :
  foldl (λ (durations : gmap string string) vid,
           <[YouTube.detail_id vid := YouTube.detail_duration vid]> durations)
        ∅ details !! k
  = YouTube.detail_duration
      <$> last (filter (λ d, YouTube.detail_id d = k) details).
Proof.
  induction details as [|d details IH] using rev_ind; [done|].
  rewrite foldl_snoc, filter_app.
  destruct (decide (YouTube.detail_id d = k)) as [Hk|Hk].
  - rewrite Hk, lookup_insert_eq.
    rewrite (filter_cons_True _ d []) by done.
    by rewrite filter_nil, last_snoc.
  - rewrite lookup_insert_ne by done.
    rewrite (filter_cons_False _ d []) by done.
    by rewrite filter_nil, app_nil_r.
Qed.

(** X10: in the [durations] table the last entry of the details response
    wins: the duration looked up for an id is the one of the last item of
    the response with that id, and there is none when no item has it. *)
Theorem durations_last_entry_wins
    (youtube : YouTube.Service) (video_ids : list string)
    (details : option (list YouTube.DetailItem))
    (durations : gmap string string) (k : string) :
  YouTube.videos_list youtube (String.concat "," video_ids) = Ok details →
  YouTube.fetch_durations youtube video_ids = Ok durations →
  durations !! k
  = YouTube.detail_duration
      <$> last (filter (λ d, YouTube.detail_id d = k) (default [] details)).
Proof.
  intros Hdetails Hfetch. unfold YouTube.fetch_durations in Hfetch.
  rewrite Hdetails in Hfetch. injection Hfetch as <-.
  apply durations_table_lookup.
Qed.

Lemma durations_last_entry_wins_witness :
  ∃ durations : gmap string string,
    YouTube.fetch_durations (Samples.service Samples.details_twice) ["abc"]
      = Ok durations
    ∧ durations !! "abc" = Some "PT1H".
Proof.
  eexists. split; [reflexivity|].
  exact (durations_last_entry_wins
    (Samples.service Samples.details_twice) ["abc"]
    (Some Samples.details_twice) _ "abc" eq_refl eq_refl).
Defined.

(** X11: [search_videos] consults the service through two requests only:
    the search, and, when the search has items, one details request for
    their ids joined by commas. Two services that answer these alike give
    the same result; with no item the details request plays no part. *)
Theorem search_videos_two_requests
    (build build' : string → YouTube.Service)
    (parse_duration : string → option Z)
    (key query : string) (max_results : Z) (order : string) :
  YouTube.search_list (build key) query max_results order
    = YouTube.search_list (build' key) query max_results order →
  (∀ response : option (list YouTube.SearchItem),
     YouTube.search_list (build key) query max_results order = Ok response →
     default [] response ≠ [] →
     YouTube.videos_list (build key)
       (String.concat "," (YouTube.item_videoId <$> default [] response))
     = YouTube.videos_list (build' key)
         (String.concat "," (YouTube.item_videoId <$> default [] response))) →
  YouTube.search_videos build parse_duration key query max_results order
  = YouTube.search_videos build' parse_duration key query max_results order.
Proof.
  intros Hsearch Hdetails. unfold YouTube.search_videos.
  rewrite <- Hsearch.
  destruct (YouTube.search_list (build key) _ _ _) as [response|e]; [|done].
  destruct (default [] response) as [|item items] eqn:Hitems; [done|].
  cbn [Py.truthy negb]. unfold YouTube.fetch_durations.
  specialize (Hdetails response eq_refl). rewrite Hitems in Hdetails.
  by rewrite Hdetails.
Qed.

Lemma search_videos_two_requests_witness :
  YouTube.search_videos (λ _, Samples.service_search_refused)
    Samples.parse_duration "key" "React tutorial" 2 "relevance"
  = YouTube.search_videos (λ _, Samples.service_search_refused_too)
      Samples.parse_duration "key" "React tutorial" 2 "relevance".
Proof.
  apply (search_videos_two_requests
           (λ _, Samples.service_search_refused)
           (λ _, Samples.service_search_refused_too)); [reflexivity|].
  intros response Hresponse. discriminate Hresponse.
Defined.

Lemma slice_to_negative {A : Type} (l : list A) (n : Z) :
  (n < 0)%Z → Py.slice_to l n = take (length l - Z.to_nat (- n)) l.
Proof.
  intros Hn. unfold Py.slice_to, Py.slice, Py.clamp_index.
  destruct (Z.ltb_spec n 0) as [_|]; [|lia].
  destruct (Z.ltb_spec 0 0) as [|_]; [lia|].
  rewrite Z.min_l by lia. simpl. rewrite drop_0. f_equal. lia.
Qed.

(** X12: a negative [max_articles] does not give an empty list: as a
    slice bound it counts from the end, so the adapter returns all the
    entries of the feed but the last [-max_articles] ones (none when the
    feed has no more than that). *)
Theorem get_articles_negative_max
    (feedparser_parse : string → list (gmap string string))
    (tag : string) (max_articles : Z) :
  (max_articles < 0)%Z →
  let entries := feedparser_parse ("https://medium.com/feed/tag/" +:+ tag) in
  Medium.get_articles_for_tag feedparser_parse tag max_articles
  = Medium.article_of_entry
      <$> take (length entries - Z.to_nat (- max_articles)) entries.
Proof.
  intros Hmax entries. unfold Medium.get_articles_for_tag. fold entries.
  by rewrite slice_to_negative.
Qed.

Lemma get_articles_negative_max_witness :
  Medium.title <$> Medium.get_articles_for_tag Samples.feed "react" (-1)
  = ["A"; "B"].
Proof.
  rewrite (get_articles_negative_max Samples.feed "react" (-1) ltac:(lia)).
  reflexivity.
Defined.

(** X13: when the feed has no more than [max_articles] entries, every
    entry is returned, converted, in the order of the feed. *)
Theorem get_articles_all_when_few
    (feedparser_parse : string → list (gmap string string))
    (tag : string) (max_articles : Z) :
  let entries := feedparser_parse ("https://medium.com/feed/tag/" +:+ tag) in
  (Z.of_nat (length entries) ≤ max_articles)%Z →
  Medium.get_articles_for_tag feedparser_parse tag max_articles
  = Medium.article_of_entry <$> entries.
Proof.
  intros entries Hmax. unfold Medium.get_articles_for_tag. fold entries.
  rewrite slice_to_take by lia. by rewrite take_ge by lia.
Qed.

Lemma get_articles_all_when_few_witness :
  length (Medium.get_articles_for_tag Samples.feed "react" 10) = 3%nat.
Proof.
  rewrite (get_articles_all_when_few Samples.feed "react" 10);
    [reflexivity | simpl; lia].
Defined.

(** * Further properties of the tag slug and of the duration text *)

Lemma re_sub_no_space (in_run : bool) (repl s : list N) :
  Forall (λ c, Py.isspace c = false) repl →
  Forall (λ c, Py.isspace c = false) (Py.re_sub_spaces_from in_run repl s).
Proof.
  intros Hrepl. revert in_run.
  induction s as [|c s IH]; intros in_run; [constructor|]. simpl.
  destruct (Py.isspace c) eqn:Hc.
  - destruct in_run; [apply IH|]. apply Forall_app. split; [done | apply IH].
  - constructor; [done | apply IH].
Qed.

(** X14: the text of the tag slug holds no white-space character,
    whatever the skill and the case mapping are. *)
Theorem tag_slug_no_space (str_lower : list N → list N) (skill : string) :
  Forall (λ c, Py.isspace c = false)
         (LearningPath.tag_slug_text str_lower skill).
Proof.
  apply re_sub_no_space. by repeat constructor.
Qed.

Lemma string_length_app (a b : string) :
  String.length (a +:+ b) = (String.length a + String.length b)%nat.
Proof.
  induction a as [|c a IH]; [done|]. simpl. by rewrite IH.
Qed.

Lemma string_app_suffix_inj (a b x y : string) :
  String.length x = String.length y →
  a +:+ x = b +:+ y → a = b ∧ x = y.
Proof.
  revert b. induction a as [|c a IH]; intros [|c' b] Hlen Heq.
  - done.
  - change (x = String c' (b +:+ y)) in Heq. subst x.
    change (S (String.length (b +:+ y)) = String.length y) in Hlen.
    rewrite string_length_app in Hlen. lia.
  - change (String c (a +:+ x) = y) in Heq. subst y.
    change (String.length x = S (String.length (a +:+ x))) in Hlen.
    rewrite string_length_app in Hlen. lia.
  - change (String c (a +:+ x) = String c' (b +:+ y)) in Heq.
    injection Heq as -> Heq. destruct (IH b Hlen Heq) as [-> ->]. done.
Qed.

Lemma two_digits_inj (a b : Z) :
  (0 ≤ a < 60)%Z → (0 ≤ b < 60)%Z →
  Spec.two_digits a = Spec.two_digits b → a = b.
Proof.
  intros Ha Hb Heq.
  assert (Hall : forallb (λ x, forallb (λ y,
            implb (String.eqb (Spec.two_digits x) (Spec.two_digits y))
                  (x =? y)%Z) (seqZ 0 60)) (seqZ 0 60) = true)
    by (vm_compute; reflexivity).
  rewrite forallb_forall in Hall.
  specialize (Hall a). rewrite forallb_forall in Hall.
  assert (Hin : ∀ x, (0 ≤ x < 60)%Z → In x (seqZ 0 60)).
  { intros x Hx. apply list_elem_of_In, elem_of_seqZ. lia. }
  specialize (Hall (Hin a Ha) b (Hin b Hb)).
  apply String.eqb_eq in Heq. rewrite Heq in Hall. simpl in Hall.
  by apply Z.eqb_eq.
Qed.

(** X17: the duration text loses nothing of the whole seconds: two
    looked-up durations that parse to different numbers of seconds are
    never shown by the same text. *)
Theorem duration_text_injective
    (parse_duration : string → option Z) (iso iso' : string) (t t' : Z) :
  iso ≠ "" → iso' ≠ "" →
  parse_duration iso = Some t → parse_duration iso' = Some t' →
  YouTube.duration_str parse_duration (Some iso)
  = YouTube.duration_str parse_duration (Some iso') →
  t = t'.
Proof.
  intros Hiso Hiso' Ht Ht'.
  rewrite (duration_str_parsed _ iso t), (duration_str_parsed _ iso' t')
    by done.
  unfold Spec.minutes_seconds. intros Heq.
  apply string_app_suffix_inj in Heq as [Hmin Hsec]; [|done].
  apply (inj pretty) in Hmin.
  apply (string_app_suffix_inj ":" ":") in Hsec as [_ Hsec]; [|done].
  apply (two_digits_inj (t mod 60) (t' mod 60)) in Hsec;
    [| by apply Z.mod_pos_bound..].
  rewrite (Z.div_mod t 60), (Z.div_mod t' 60) by lia. congruence.
Qed.

Lemma duration_text_injective_witness :
  YouTube.duration_str Samples.parse_duration (Some "PT2M5S")
  = YouTube.duration_str Samples.parse_duration (Some "PT125S")
  ∧ (125 = 125)%Z.
Proof.
  split; [reflexivity|].
  exact (duration_text_injective Samples.parse_duration "PT2M5S" "PT125S"
           125 125 ltac:(discriminate) ltac:(discriminate) eq_refl eq_refl
           eq_refl).
Defined.

(** * Properties of the printed plan *)

Lemma print_rows_plain
    (tabulate : option (list (list string) → list string → string))
    (use_table : bool) (headers : list string)
    (line : list string → string) (rows : list (list string)) :
  tabulate = None ∨ use_table = false →
  Cli.print_rows tabulate use_table headers line rows = line <$> rows.
Proof.
  unfold Cli.print_rows. intros [-> | ->]; [done|]. by destruct tabulate.
Qed.

(** X18: without a table (the [tabulate] package is missing or
    [use_table] is off) every video of every week has a line of its own in
    the output, numbered from 1 within its week, with its title, its
    duration or "--" when the duration is empty, and its url; and every
    article has a line with its number, title and url. *)
Theorem plain_output_lists_every_resource
    (tabulate : option (list (list string) → list string → string))
    (plan : list LearningPath.WeekPlan) (use_table : bool)
    (w : LearningPath.WeekPlan) (i : nat) :
  tabulate = None ∨ use_table = false →
  w ∈ plan →
  (∀ v : YouTube.VideoResource,
     LearningPath.videos w !! i = Some v →
     "    " +:+ pretty (S i) +:+ ". " +:+ YouTube.title v +:+ " ("
     +:+ (if Py.str_truthy (YouTube.duration v)
          then YouTube.duration v else "--")
     +:+ ") – " +:+ YouTube.url v
     ∈ Cli.print_learning_plan tabulate plan use_table)
  ∧ (∀ a : Medium.ArticleResource,
       LearningPath.articles w !! i = Some a →
       "    " +:+ pretty (S i) +:+ ". " +:+ Medium.title a +:+ " – "
       +:+ Medium.url a
       ∈ Cli.print_learning_plan tabulate plan use_table).
Proof.
  intros Hplain Hw. unfold Cli.print_learning_plan. split.
  - intros v Hv. apply list_elem_of_bind. exists w. split; [|done].
    unfold Cli.print_week.
    destruct (LearningPath.videos w) as [|v0 vs] eqn:Hvideos; [done|].
    cbn [Py.truthy]. rewrite !print_rows_plain by done.
    apply elem_of_app; right. apply elem_of_app; left. right.
    apply list_elem_of_fmap.
    exists [pretty (S i); YouTube.title v;
            Py.str_or (YouTube.duration v) "--"; YouTube.url v].
    split; [done|]. apply list_elem_of_lookup. exists i.
    unfold Cli.video_rows. by rewrite list_lookup_imap, Hv.
  - intros a Ha. apply list_elem_of_bind. exists w. split; [|done].
    unfold Cli.print_week.
    destruct (LearningPath.articles w) as [|a0 arts] eqn:Harticles; [done|].
    cbn [Py.truthy]. rewrite !print_rows_plain by done.
    apply elem_of_app; right. apply elem_of_app; right.
    apply elem_of_app; left. right.
    apply list_elem_of_fmap.
    exists [pretty (S i); Medium.title a; Medium.url a].
    split; [done|]. apply list_elem_of_lookup. exists i.
    unfold Cli.article_rows. by rewrite list_lookup_imap, Ha.
Qed.

Lemma plain_output_lists_every_resource_witness :
  "    1. Intro (2:05) – https://www.youtube.com/watch?v=abc"
  ∈ Cli.print_learning_plan None
      (LearningPath.assemble "React" 1 1 1 [Samples.lone_video] []) true.
Proof.
  assert (Hw : LearningPath.week_plan "React" 1 1 [Samples.lone_video] [] 0
               ∈ LearningPath.assemble "React" 1 1 1 [Samples.lone_video] [])
    by (vm_compute; left).
  exact (proj1 (plain_output_lists_every_resource None
    (LearningPath.assemble "React" 1 1 1 [Samples.lone_video] []) true
    _ 0%nat (or_introl eq_refl) Hw) Samples.lone_video eq_refl).
Defined.

Lemma print_week_no_resources
    (tabulate : option (list (list string) → list string → string))
    (use_table : bool) (w : LearningPath.WeekPlan) :
  LearningPath.videos w = [] → LearningPath.articles w = [] →
  Cli.print_week tabulate use_table w
  = [String "010" ("Week " +:+ pretty (LearningPath.week w) +:+ ": "
                   +:+ LearningPath.theme w);
     "  Videos: None"; "  Articles: None";
     "  Suggested activities:";
     "    " +:+ LearningPath.activities w].
Proof. unfold Cli.print_week. by intros -> ->. Qed.

(** X19: when the API refuses the search and the feed has no entry, the
    plan is still printed in full: for every week, in order, the five
    lines of its heading, "  Videos: None", "  Articles: None" and the
    suggested activities, the same with and without a table. *)
Theorem degraded_plan_output
    (build : string → YouTube.Service) (parse_duration : string → option Z)
    (feedparser_parse : string → list (gmap string string))
    (str_lower : list N → list N)
    (skill key : string) (weeks videos_per_week articles_per_week : Z)
    (order : string) :
  YouTube.search_list (build key) (skill +:+ " tutorial")
    (weeks * videos_per_week)%Z order = Raise HttpError →
  feedparser_parse
    ("https://medium.com/feed/tag/" +:+ LearningPath.tag_slug str_lower skill) = [] →
  ∃ plan,
    LearningPath.generate_learning_path build parse_duration feedparser_parse
      str_lower skill key weeks videos_per_week articles_per_week order = Ok plan
    ∧ ∀ (tabulate : option (list (list string) → list string → string))
        (use_table : bool),
        Cli.print_learning_plan tabulate plan use_table
        = plan ≫= (λ w,
            [String "010" ("Week " +:+ pretty (LearningPath.week w) +:+ ": "
                           +:+ LearningPath.theme w);
             "  Videos: None"; "  Articles: None";
             "  Suggested activities:";
             "    " +:+ LearningPath.activities w])
        ∧ length (Cli.print_learning_plan tabulate plan use_table)
          = (5 * Z.to_nat weeks)%nat.
Proof.
  intros Hsearch Hfeed.
  assert (Hpad : ∀ (A : Type) total, LearningPath.pad total (@nil A) = []).
  { intros A total. unfold LearningPath.pad. rewrite extend_until_nil.
    unfold Py.slice_to. by rewrite slice_nil. }
  assert (Harticles :
    Medium.get_articles_for_tag feedparser_parse (LearningPath.tag_slug str_lower skill)
      (weeks * articles_per_week)%Z = []).
  { unfold Medium.get_articles_for_tag. rewrite Hfeed.
    unfold Py.slice_to. by rewrite slice_nil. }
  exists (LearningPath.week_plan skill videos_per_week articles_per_week [] []
            <$> Py.range weeks).
  split.
  { apply generate_learning_path_Ok. exists []. split.
    - apply search_videos_Ok. by left.
    - rewrite Harticles. unfold LearningPath.assemble.
      cbn [Py.truthy negb]. by rewrite !Hpad. }
  intros tabulate use_table. unfold Cli.print_learning_plan.
  assert (Hlen : length (Py.range weeks) = Z.to_nat weeks)
    by apply length_seq.
  rewrite <- Hlen. clear Hlen.
  induction (Py.range weeks) as [|i l [IH1 IH2]]; [done|].
  cbn [fmap list_fmap mbind list_bind].
  rewrite print_week_no_resources by (simpl; apply slice_nil).
  rewrite IH1. split; [done|].
  rewrite length_app, <- IH1, IH2. simpl. lia.
Qed.

Lemma degraded_plan_output_witness :
  ∃ plan,
    LearningPath.generate_learning_path
      (λ _, Samples.service_search_refused) Samples.parse_duration
      Samples.empty_feed Samples.str_lower "React" "key" 2 1 1 "relevance" = Ok plan
    ∧ length (Cli.print_learning_plan None plan true) = 10%nat.
Proof.
  destruct (degraded_plan_output
    (λ _, Samples.service_search_refused) Samples.parse_duration
    Samples.empty_feed Samples.str_lower "React" "key" 2 1 1 "relevance" eq_refl eq_refl)
    as (plan & Hplan & Hout).
  exists plan. split; [done|]. exact (proj2 (Hout None true)).
Defined.
